(** * nitriding-daemon: attesters, key store and enclave-internal handlers

    A shallow embedding of [attester.go], of the key store [enclaveKeys]
    and of the handlers [hashHandler] and [attestationHandler], with the
    parts of Go's standard library they call ([encoding/base64],
    [encoding/hex], [encoding/json], [strings], [bytes], [net/http]'s
    response writer).

    The file has two parts: the definitions, module by module in the order
    the program depends on them, and then the lemmas and theorems. *)

From Stdlib Require Import List Bool Arith NArith ZArith Lia.
From Stdlib Require Import Strings.Byte Strings.Ascii Strings.String.
From Stdlib Require DecimalString DecimalZ.
Import ListNotations.

Local Open Scope string_scope.
Local Open Scope list_scope.

(* ===================================================================== *)
(** * Part I: definitions                                                 *)
(* ===================================================================== *)

(** ** Go values *)

(** A Go byte slice [[]byte]: [None] is the nil slice, [Some bs] a non-nil
    slice with contents [bs].  [s != nil] and [len(s)] tell them apart the
    way Go does: the nil slice has length zero, and so has [Some []]. *)
Definition slice := option (list byte).

Definition isNil (s : slice) : bool :=
  match s with None => true | Some _ => false end.

Definition contents (s : slice) : list byte :=
  match s with None => [] | Some bs => bs end.

Definition len (s : slice) : nat := List.length (contents s).

(** Go's [error] values, as far as the program builds or tests them. *)
Inductive error : Type :=
| errorsNew (msg : string)            (* errors.New(msg) *)
| fmtErrorf (msg : string)            (* fmt.Errorf without a wrapped error *)
| fmtErrorfW (msg : string) (wrapped : error)
                                      (* fmt.Errorf with the verb %w *)
| jsonError (msg : string)            (* an error of encoding/json *)
| foreignError (n : nat).             (* an error of a collaborator *)

(** A Go result pair [(T, error)] of which exactly one side is used. *)
Inductive result (A : Type) : Type :=
| Ok (a : A)
| Err (e : error).
Arguments Ok {A} a.
Arguments Err {A} e.

Module bytes.
(** [bytes.Equal]: same length and same bytes; nil equals empty. *)
Fixpoint eqb (a b : list byte) : bool :=
  match a, b with
  | [], [] => true
  | x :: a', y :: b' => Byte.eqb x y && eqb a' b'
  | _, _ => false
  end.

Definition Equal (a b : slice) : bool := eqb (contents a) (contents b).
End bytes.

(** The bytes of a string and back ([[]byte(s)] and [string(b)]). *)
Definition bytesOf (s : string) : list byte := list_byte_of_string s.
Definition stringOf (b : list byte) : string := string_of_list_byte b.

(** The double quote, which a string literal of this file cannot hold. *)
Definition dquote : ascii := "034"%char.

Definition byte_of_N (n : N) : byte :=
  match Byte.of_N (n mod 256) with Some b => b | None => x00 end.

Definition ascii_of_code (n : N) : ascii := ascii_of_N (n mod 256).

(** ** encoding/base64, [StdEncoding] *)

Module base64.

Definition encodeStd : string :=
  "ABCDEFGHIJKLMNOPQRSTUVWXYZabcdefghijklmnopqrstuvwxyz0123456789+/".

Definition padChar : ascii := "="%char.

(** The character of a six-bit value. *)
Definition enc6 (n : N) : ascii :=
  match String.get (N.to_nat n) encodeStd with
  | Some c => c
  | None => "A"%char
  end.

(** The decode map: the position of a character in the alphabet. *)
Fixpoint index_of (c : ascii) (alphabet : string) (i : N) : option N :=
  match alphabet with
  | EmptyString => None
  | String a rest =>
      if Ascii.eqb a c then Some i else index_of c rest (i + 1)
  end.

Definition dec6 (c : ascii) : option N := index_of c encodeStd 0.

(** [EncodeToString]: three bytes give four characters; a last group of
    one or two bytes is padded with [=]. *)
Fixpoint EncodeToString (src : list byte) : string :=
  match src with
  | [] => EmptyString
  | [a] =>
      let v := (Byte.to_N a * 65536)%N in
      String (enc6 (v / 262144)) (String (enc6 ((v / 4096) mod 64))
        (String padChar (String padChar EmptyString)))
  | [a; b] =>
      let v := (Byte.to_N a * 65536 + Byte.to_N b * 256)%N in
      String (enc6 (v / 262144)) (String (enc6 ((v / 4096) mod 64))
        (String (enc6 ((v / 64) mod 64)) (String padChar EmptyString)))
  | a :: b :: c :: rest =>
      let v := (Byte.to_N a * 65536 + Byte.to_N b * 256 + Byte.to_N c)%N in
      String (enc6 (v / 262144)) (String (enc6 ((v / 4096) mod 64))
        (String (enc6 ((v / 64) mod 64)) (String (enc6 (v mod 64))
          (EncodeToString rest))))
  end.

(** The decoder skips carriage returns and line feeds wherever they
    stand. *)
Definition isNewline (c : ascii) : bool :=
  Ascii.eqb c "010"%char || Ascii.eqb c "013"%char.

Fixpoint dropNewlines (s : string) : string :=
  match s with
  | EmptyString => EmptyString
  | String c r =>
      if isNewline c then dropNewlines r else String c (dropNewlines r)
  end.

(** The quanta of four characters.  Padding is accepted in the last
    quantum only, after two or three characters of the alphabet, and
    nothing may follow it; an incomplete quantum is corrupt input.  The
    encoding is not strict: the unused low bits of a padded quantum are
    not examined. *)
Fixpoint decodeQuanta (s : string) : option (list byte) :=
  match s with
  | EmptyString => Some []
  | String c0 (String c1 (String c2 (String c3 rest))) =>
      match dec6 c0, dec6 c1 with
      | Some s0, Some s1 =>
          if Ascii.eqb c2 padChar then
            if Ascii.eqb c3 padChar then
              match rest with
              | EmptyString =>
                  let v := (s0 * 262144 + s1 * 4096)%N in
                  Some [byte_of_N (v / 65536)]
              | _ => None
              end
            else None
          else
            match dec6 c2 with
            | Some s2 =>
                if Ascii.eqb c3 padChar then
                  match rest with
                  | EmptyString =>
                      let v := (s0 * 262144 + s1 * 4096 + s2 * 64)%N in
                      Some [byte_of_N (v / 65536); byte_of_N (v / 256)]
                  | _ => None
                  end
                else
                  match dec6 c3 with
                  | Some s3 =>
                      let v :=
                        (s0 * 262144 + s1 * 4096 + s2 * 64 + s3)%N in
                      match decodeQuanta rest with
                      | Some bs =>
                          Some (byte_of_N (v / 65536)
                                :: byte_of_N (v / 256)
                                :: byte_of_N v :: bs)
                      | None => None
                      end
                  | None => None
                  end
            | None => None
            end
      | _, _ => None
      end
  | _ => None
  end.

(** [DecodeString]; [None] stands for a [CorruptInputError]. *)
Definition DecodeString (s : string) : option (list byte) :=
  decodeQuanta (dropNewlines s).

(** [EncodedLen] of the padded encoding. *)
Definition EncodedLen (n : nat) : nat := (n + 2) / 3 * 4.

End base64.

(** ** encoding/hex *)

Module hex.

(** [reverseHexTable]: both cases of the letters are digits. *)
Definition fromHexChar (c : ascii) : option N :=
  let n := N_of_ascii c in
  if ((48 <=? n) && (n <=? 57))%N then Some (n - 48)%N
  else if ((97 <=? n) && (n <=? 102))%N then Some (n - 87)%N
  else if ((65 <=? n) && (n <=? 70))%N then Some (n - 55)%N
  else None.

(** [DecodeString]: pairs of digits; a character that is no digit or an
    odd length is an error. *)
Fixpoint DecodeString (s : string) : option (list byte) :=
  match s with
  | EmptyString => Some []
  | String p (String q rest) =>
      match fromHexChar p, fromHexChar q with
      | Some a, Some b =>
          match DecodeString rest with
          | Some bs => Some (byte_of_N (a * 16 + b) :: bs)
          | None => None
          end
      | _, _ => None
      end
  | String _ EmptyString => None
  end.

End hex.

(** ** strings *)

Module strings.

(** [strings.ToLower] on the ASCII letters.  A rune outside ASCII is left
    as it is: none of them has a hexadecimal digit as its lower case, and
    the only reader of the result, [hex.DecodeString], refuses the rune
    in either form. *)
Definition toLower (c : ascii) : ascii :=
  let n := N_of_ascii c in
  if ((65 <=? n) && (n <=? 90))%N then ascii_of_N (n + 32) else c.

Fixpoint ToLower (s : string) : string :=
  match s with
  | EmptyString => EmptyString
  | String c r => String (toLower c) (ToLower r)
  end.

(** The white space of [asciiSpace]: tab, line feed, vertical tab, form
    feed, carriage return and space. *)
Definition asciiSpace (c : ascii) : bool :=
  let n := N_of_ascii c in
  (((9 <=? n) && (n <=? 13)) || (n =? 32))%N.

(** The other runes of [unicode.IsSpace], by their UTF-8 bytes:
    U+0085 and U+00A0 take two bytes, U+1680, U+2000 to U+200A, U+2028,
    U+2029, U+202F, U+205F and U+3000 take three. *)
Definition space2 (a b : ascii) : bool :=
  let a := N_of_ascii a in
  let b := N_of_ascii b in
  ((a =? 194) && ((b =? 133) || (b =? 160)))%N.

Definition space3 (a b c : ascii) : bool :=
  let a := N_of_ascii a in
  let b := N_of_ascii b in
  let c := N_of_ascii c in
  (((a =? 225) && (b =? 154) && (c =? 128))
   || ((a =? 226) && (b =? 128)
       && (((128 <=? c) && (c <=? 138))
           || (c =? 168) || (c =? 169) || (c =? 175)))
   || ((a =? 226) && (b =? 129) && (c =? 159))
   || ((a =? 227) && (b =? 128) && (c =? 128)))%N.

(** Leading white space removed, rune by rune. *)
Fixpoint TrimLeftSpace (s : string) : string :=
  match s with
  | EmptyString => EmptyString
  | String a r =>
      if asciiSpace a then TrimLeftSpace r
      else
        match r with
        | String b r2 =>
            if space2 a b then TrimLeftSpace r2
            else
              match r2 with
              | String c r3 =>
                  if space3 a b c then TrimLeftSpace r3 else s
              | EmptyString => s
              end
        | EmptyString => s
        end
  end.

Fixpoint rev (s acc : string) : string :=
  match s with
  | EmptyString => acc
  | String c r => rev r (String c acc)
  end.

(** Trailing white space removed: the last rune is read backwards, so
    the bytes of a rune come in reverse order. *)
Fixpoint TrimLeftSpaceRev (s : string) : string :=
  match s with
  | EmptyString => EmptyString
  | String a r =>
      if asciiSpace a then TrimLeftSpaceRev r
      else
        match r with
        | String b r2 =>
            if space2 b a then TrimLeftSpaceRev r2
            else
              match r2 with
              | String c r3 =>
                  if space3 c b a then TrimLeftSpaceRev r3 else s
              | EmptyString => s
              end
        | EmptyString => s
        end
  end.

Definition TrimRightSpace (s : string) : string :=
  rev (TrimLeftSpaceRev (rev s EmptyString)) EmptyString.

(** [strings.TrimSpace] *)
Definition TrimSpace (s : string) : string :=
  TrimRightSpace (TrimLeftSpace s).

End strings.

(** ** encoding/json *)

Module json.

(** A JSON text after the scanner: an object keeps its members in the
    order of the text, duplicates included; a number keeps its
    literal. *)
#[warnings="-register-all"]
Inductive value : Type :=
| Null
| Bool (b : bool)
| Number (literal : string)
| Str (s : string)
| Array (elements : list value)
| Object (members : list (string * value)).

Definition isSpace (c : ascii) : bool :=
  Ascii.eqb c " "%char || Ascii.eqb c "009"%char
  || Ascii.eqb c "013"%char || Ascii.eqb c "010"%char.

Fixpoint skipSpace (s : string) : string :=
  match s with
  | EmptyString => EmptyString
  | String c r => if isSpace c then skipSpace r else s
  end.

Definition isDigit (c : ascii) : bool :=
  let n := N_of_ascii c in ((48 <=? n) && (n <=? 57))%N.

(** The longest run of digits at the head of the text, and what follows
    it. *)
Fixpoint digits (s : string) : string * string :=
  match s with
  | EmptyString => (EmptyString, EmptyString)
  | String c r =>
      if isDigit c then let (d, r') := digits r in (String c d, r')
      else (EmptyString, s)
  end.

(** The rest of a text that starts with the character. *)
Definition after (c : ascii) (s : string) : option string :=
  match s with
  | String x r => if Ascii.eqb x c then Some r else None
  | EmptyString => None
  end.

(** A run of at least one digit. *)
Definition someDigits (s : string) : option (string * string) :=
  match digits s with
  | (EmptyString, _) => None
  | (d, r) => Some (d, r)
  end.

(** The parts of a number: an optional minus; [0] or a run of digits, which
    the scanner does not let start with [0]; an optional fraction; an
    optional exponent.  Each gives its text and what follows it. *)
Definition minus (s : string) : string * string :=
  match after "-" s with
  | Some r => ("-", r)
  | None => (EmptyString, s)
  end.

Definition integer (s : string) : option (string * string) :=
  match after "0" s with
  | Some r => Some ("0", r)
  | None => someDigits s
  end.

Definition fraction (s : string) : option (string * string) :=
  match after "." s with
  | Some r =>
      match someDigits r with
      | Some (d, r') => Some (String "."%char d, r')
      | None => None
      end
  | None => Some (EmptyString, s)
  end.

Definition sign (s : string) : string * string :=
  match after "+" s with
  | Some r => ("+", r)
  | None => minus s
  end.

Definition exponent (s : string) : option (string * string) :=
  match s with
  | String e r =>
      if Ascii.eqb e "e"%char || Ascii.eqb e "E"%char then
        let (sg, r1) := sign r in
        match someDigits r1 with
        | Some (d, r') => Some (String e (sg ++ d)%string, r')
        | None => None
        end
      else Some (EmptyString, s)
  | EmptyString => Some (EmptyString, s)
  end.

Definition number (s : string) : option (string * string) :=
  let (sg, s1) := minus s in
  match integer s1 with
  | None => None
  | Some (i, s2) =>
      match fraction s2 with
      | None => None
      | Some (f, s3) =>
          match exponent s3 with
          | None => None
          | Some (x, s4) => Some ((sg ++ i ++ f ++ x)%string, s4)
          end
      end
  end.

(** [utf8.EncodeRune] *)
Definition encodeRune (r : N) : string :=
  if (r <? 128)%N then String (ascii_of_code r) EmptyString
  else if (r <? 2048)%N then
    String (ascii_of_code (192 + r / 64))
      (String (ascii_of_code (128 + r mod 64)) EmptyString)
  else if (r <? 65536)%N then
    String (ascii_of_code (224 + r / 4096))
      (String (ascii_of_code (128 + (r / 64) mod 64))
         (String (ascii_of_code (128 + r mod 64)) EmptyString))
  else
    String (ascii_of_code (240 + r / 262144))
      (String (ascii_of_code (128 + (r / 4096) mod 64))
         (String (ascii_of_code (128 + (r / 64) mod 64))
            (String (ascii_of_code (128 + r mod 64)) EmptyString))).

Definition replacementChar : N := 65533.

Definition hex4 (a b c d : ascii) : option N :=
  match hex.fromHexChar a, hex.fromHexChar b,
        hex.fromHexChar c, hex.fromHexChar d with
  | Some x, Some y, Some z, Some w =>
      Some (x * 4096 + y * 256 + z * 16 + w)%N
  | _, _, _, _ => None
  end.

Definition isSurrogate (r : N) : bool := ((55296 <=? r) && (r <? 57344))%N.

(** [utf16.DecodeRune]: a high surrogate and a low one make a rune. *)
Definition decodeSurrogates (r1 r2 : N) : option N :=
  if ((55296 <=? r1) && (r1 <? 56320)
      && (56320 <=? r2) && (r2 <? 57344))%N
  then Some ((r1 - 55296) * 1024 + (r2 - 56320) + 65536)%N
  else None.

Definition simpleEscape (c : ascii) : option ascii :=
  if Ascii.eqb c dquote then Some dquote
  else if Ascii.eqb c "\"%char then Some "\"%char
  else if Ascii.eqb c "/"%char then Some "/"%char
  else if Ascii.eqb c "b"%char then Some "008"%char
  else if Ascii.eqb c "f"%char then Some "012"%char
  else if Ascii.eqb c "n"%char then Some "010"%char
  else if Ascii.eqb c "r"%char then Some "013"%char
  else if Ascii.eqb c "t"%char then Some "009"%char
  else None.

(** The text of a string literal after its opening quote, unquoted, and
    what follows the closing quote.  A control character and an unknown
    escape are syntax errors.  Bytes from 128 on are copied as they are:
    Go replaces ill-formed UTF-8 by U+FFFD, which changes neither whether
    a key names a field below nor whether a value is Base64. *)
Fixpoint stringBody (s : string) : option (string * string) :=
  match s with
  | EmptyString => None
  | String c r =>
      if Ascii.eqb c dquote then Some (EmptyString, r)
      else if Ascii.eqb c "\"%char then
        match r with
        | EmptyString => None
        | String e r1 =>
            if Ascii.eqb e "u"%char then
              match r1 with
              | String h1 (String h2 (String h3 (String h4 r2))) =>
                  match hex4 h1 h2 h3 h4 with
                  | None => None
                  | Some rr =>
                      if isSurrogate rr then
                        let pair :=
                          match r2 with
                          | String b1 (String b2
                              (String g1 (String g2 (String g3
                                 (String g4 r3))))) =>
                              if Ascii.eqb b1 "\"%char
                                 && Ascii.eqb b2 "u"%char then
                                match hex4 g1 g2 g3 g4 with
                                | Some rr1 =>
                                    match decodeSurrogates rr rr1 with
                                    | Some dec =>
                                        match stringBody r3 with
                                        | Some (t, rest) =>
                                            Some (Some
                                              ((encodeRune dec ++ t)%string,
                                               rest))
                                        | None => Some None
                                        end
                                    | None => None
                                    end
                                | None => None
                                end
                              else None
                          | _ => None
                          end in
                        match pair with
                        | Some res => res
                        | None =>
                            match stringBody r2 with
                            | Some (t, rest) =>
                                Some ((encodeRune replacementChar ++ t)
                                        %string, rest)
                            | None => None
                            end
                        end
                      else
                        match stringBody r2 with
                        | Some (t, rest) =>
                            Some ((encodeRune rr ++ t)%string, rest)
                        | None => None
                        end
                  end
              | _ => None
              end
            else
              match simpleEscape e with
              | None => None
              | Some x =>
                  match stringBody r1 with
                  | Some (t, rest) => Some (String x t, rest)
                  | None => None
                  end
              end
        end
      else if (N_of_ascii c <? 32)%N then None
      else
        match stringBody r with
        | Some (t, rest) => Some (String c t, rest)
        | None => None
        end
  end.

Fixpoint stripPrefix (p s : string) : option string :=
  match p, s with
  | EmptyString, _ => Some s
  | String a p', String b s' =>
      if Ascii.eqb a b then stripPrefix p' s' else None
  | String _ _, EmptyString => None
  end.

(** The scanner refuses more than [maxNestingDepth] open arrays and
    objects. *)
Definition maxNestingDepth : N := 10000.

(** One value at the head of the text (no leading white space), and the
    rest of the text.  [depth] counts the arrays and objects that are
    open.  The fuel bounds the number of values, members and elements
    that are read one inside or after the other; the length of the text
    is enough ([parse_any_fuel] below). *)
Fixpoint parseValue (fuel : nat) (depth : N) (s : string) {struct fuel}
  : option (value * string) :=
  match fuel with
  | O => None
  | S fuel' =>
      match s with
      | EmptyString => None
      | String c r =>
          if Ascii.eqb c "{"%char then
            if (maxNestingDepth <? depth + 1)%N then None
            else
              match after "}" (skipSpace r) with
              | Some r' => Some (Object [], r')
              | None =>
                  match parseMembers fuel' (depth + 1) (skipSpace r) with
                  | Some (ms, rest) => Some (Object ms, rest)
                  | None => None
                  end
              end
          else if Ascii.eqb c "["%char then
            if (maxNestingDepth <? depth + 1)%N then None
            else
              match after "]" (skipSpace r) with
              | Some r' => Some (Array [], r')
              | None =>
                  match parseElements fuel' (depth + 1) (skipSpace r) with
                  | Some (xs, rest) => Some (Array xs, rest)
                  | None => None
                  end
              end
          else if Ascii.eqb c dquote then
            match stringBody r with
            | Some (t, rest) => Some (Str t, rest)
            | None => None
            end
          else if Ascii.eqb c "t"%char then
            option_map (pair (Bool true)) (stripPrefix "rue" r)
          else if Ascii.eqb c "f"%char then
            option_map (pair (Bool false)) (stripPrefix "alse" r)
          else if Ascii.eqb c "n"%char then
            option_map (pair Null) (stripPrefix "ull" r)
          else
            match number s with
            | Some (lit, rest) => Some (Number lit, rest)
            | None => None
            end
      end
  end

(** The members of an object from its first key on, up to the closing
    brace. *)
with parseMembers (fuel : nat) (depth : N) (s : string) {struct fuel}
  : option (list (string * value) * string) :=
  match fuel with
  | O => None
  | S fuel' =>
      match after dquote s with
      | None => None
      | Some r =>
          match stringBody r with
          | None => None
          | Some (key, r1) =>
              match after ":" (skipSpace r1) with
              | None => None
              | Some r2 =>
                  match parseValue fuel' depth (skipSpace r2) with
                  | None => None
                  | Some (v, r3) =>
                      match after "," (skipSpace r3) with
                      | Some r4 =>
                          match parseMembers fuel' depth (skipSpace r4) with
                          | Some (ms, rest) => Some ((key, v) :: ms, rest)
                          | None => None
                          end
                      | None =>
                          match after "}" (skipSpace r3) with
                          | Some r4 => Some ([(key, v)], r4)
                          | None => None
                          end
                      end
                  end
              end
          end
      end
  end

(** The elements of an array from the first one on, up to the closing
    bracket. *)
with parseElements (fuel : nat) (depth : N) (s : string) {struct fuel}
  : option (list value * string) :=
  match fuel with
  | O => None
  | S fuel' =>
      match parseValue fuel' depth s with
      | None => None
      | Some (v, r1) =>
          match after "," (skipSpace r1) with
          | Some r2 =>
              match parseElements fuel' depth (skipSpace r2) with
              | Some (xs, rest) => Some (v :: xs, rest)
              | None => None
              end
          | None =>
              match after "]" (skipSpace r1) with
              | Some r2 => Some ([v], r2)
              | None => None
              end
          end
      end
  end.

(** The whole text is one value, with white space around it at most. *)
Definition parse (doc : list byte) : option value :=
  let s := stringOf doc in
  match parseValue (S (String.length s)) 0 (skipSpace s) with
  | Some (v, rest) =>
      match skipSpace rest with
      | EmptyString => Some v
      | String _ _ => None
      end
  | None => None
  end.

(** *** Decoding into a struct whose fields are byte slices *)

(** [foldName]: the key of a member names a field if it is the field's
    name up to case.  The ASCII letters fold to upper case; the long s
    (U+017F, bytes 197 191) folds to [S] and the Kelvin sign (U+212A,
    bytes 226 132 170) to [K]; no other rune folds to an ASCII
    character. *)
Definition toUpper (c : ascii) : ascii :=
  let n := N_of_ascii c in
  if ((97 <=? n) && (n <=? 122))%N then ascii_of_N (n - 32) else c.

Fixpoint foldName (s : string) : string :=
  match s with
  | EmptyString => EmptyString
  | String a r =>
      match r with
      | String b r2 =>
          if ((N_of_ascii a =? 197) && (N_of_ascii b =? 191))%N
          then String "S"%char (foldName r2)
          else
            match r2 with
            | String c r3 =>
                if ((N_of_ascii a =? 226) && (N_of_ascii b =? 132)
                    && (N_of_ascii c =? 170))%N
                then String "K"%char (foldName r3)
                else String (toUpper a) (foldName r)
            | EmptyString => String (toUpper a) (foldName r)
            end
      | EmptyString => String (toUpper a) EmptyString
      end
  end.

(** A field: its name in the [json] tag and its setter. *)
Definition field (T : Type) : Type := (string * (T -> slice -> T))%type.

Fixpoint findField {T} (same : string -> string -> bool)
    (fields : list (field T)) (key : string) : option (field T) :=
  match fields with
  | [] => None
  | f :: fs => if same key (fst f) then Some f else findField same fs key
  end.

(** An exact match of the key wins over a match up to case. *)
Definition fieldOf {T} (fields : list (field T)) (key : string)
  : option (field T) :=
  match findField String.eqb fields key with
  | Some f => Some f
  | None =>
      findField (fun k n => String.eqb (foldName k) (foldName n))
                fields key
  end.

Fixpoint decimal (s : string) (acc : N) : option N :=
  match s with
  | EmptyString => Some acc
  | String c r =>
      if isDigit c then decimal r (acc * 10 + (N_of_ascii c - 48))%N
      else None
  end.

(** An element of an array that is decoded into [[]byte]: a number that
    [strconv.ParseUint] reads and that fits a [uint8].  [null] leaves the
    element as it is, which is zero in a slice that was nil; the bytes an
    earlier member of the same key may have left in the slice are not
    followed up. *)
Definition uint8 (v : value) : option byte :=
  match v with
  | Number lit =>
      match decimal lit 0 with
      | Some n => if (n <=? 255)%N then Some (byte_of_N n) else None
      | None => None
      end
  | Null => Some x00
  | _ => None
  end.

Fixpoint uint8s (xs : list value) : option (list byte) :=
  match xs with
  | [] => Some []
  | x :: xs' =>
      match uint8 x, uint8s xs' with
      | Some b, Some bs => Some (b :: bs)
      | _, _ => None
      end
  end.

(** A value decoded into a field of type [[]byte]: [null] sets nil, a
    string is read as Base64, an array element by element; anything else
    is an [UnmarshalTypeError] ([None]). *)
Definition byteSlice (v : value) : option slice :=
  match v with
  | Null => Some None
  | Str s =>
      match base64.DecodeString s with
      | Some bs => Some (Some bs)
      | None => None
      end
  | Array xs =>
      match uint8s xs with
      | Some bs => Some (Some bs)
      | None => None
      end
  | _ => None
  end.

(** The members of an object, in the order of the text: a member whose
    key names no field is skipped, a later member overrides an earlier
    one.  The decoder goes on after a value it cannot store and reports
    the error at the end; the callers of this program drop the struct
    then, so the error is returned at once. *)
Fixpoint object {T} (fields : list (field T))
    (members : list (string * value)) (t : T) : result T :=
  match members with
  | [] => Ok t
  | (key, v) :: ms =>
      match fieldOf fields key with
      | None => object fields ms t
      | Some f =>
          match byteSlice v with
          | Some b => object fields ms (snd f t b)
          | None =>
              Err (jsonError "cannot unmarshal value into Go struct field")
          end
      end
  end.

(** [json.Unmarshal(doc, &t)] for a struct [t] that holds its zero
    value. *)
Definition Unmarshal {T} (fields : list (field T)) (zero : T)
    (doc : list byte) : result T :=
  match parse doc with
  | None => Err (jsonError "invalid JSON text")
  | Some Null => Ok zero
  | Some (Object ms) => object fields ms zero
  | Some _ => Err (jsonError "cannot unmarshal value into Go struct")
  end.

(** *** Encoding a struct whose fields are byte slices *)

(** A byte slice is written as [null] when nil, else as a string of its
    Base64 encoding, which needs no escaping. *)
Definition marshalBytes (b : slice) : string :=
  match b with
  | None => "null"
  | Some bs =>
      String dquote (base64.EncodeToString bs ++ String dquote EmptyString)
  end.

Definition marshalMember (m : string * slice) : string :=
  String dquote (fst m ++ String dquote (String ":"%char
    (marshalBytes (snd m)))).

Fixpoint marshalMembers (ms : list (string * slice)) : string :=
  match ms with
  | [] => EmptyString
  | [m] => marshalMember m
  | m :: ms' => marshalMember m ++ String ","%char (marshalMembers ms')
  end.

(** [json.Marshal] of a struct, its fields in the order of their
    declaration. *)
Definition MarshalStruct (ms : list (string * slice)) : list byte :=
  bytesOf (String "{"%char (marshalMembers ms ++ "}")).

End json.

(** ** attester.go *)

(** Modelled from the spec: the type [nonce] and its method [B64] are
    declared in a file that is not part of this development.  The spec
    calls a nonce a byte sequence of [nonceLen] bytes that is compared by
    its Base64 text; the source measures it at run time with
    [len(n) == nonceLen], converts a byte slice to it with [nonce(b)] and
    reads its bytes with [n[:]].  It is taken as a named byte-slice type,
    the reading under which these length tests decide something, and
    [B64] as the standard Base64 encoding of its bytes. *)
Definition nonce := slice.

Definition B64 (n : nonce) : string := base64.EncodeToString (contents n).

Module Worker.
(** [workerAuxInfo]: the auxiliary information of the worker's
    attestation document. *)
Record workerAuxInfo : Type := {
  WorkersNonce : nonce;   (* json:"workers_nonce" *)
  LeadersNonce : nonce;   (* json:"leaders_nonce" *)
  PublicKey : slice       (* json:"public_key" *)
}.

Definition zero : workerAuxInfo :=
  {| WorkersNonce := None; LeadersNonce := None; PublicKey := None |}.

Definition fields : list (json.field workerAuxInfo) :=
  [ ("workers_nonce",
     fun w b => {| WorkersNonce := b; LeadersNonce := LeadersNonce w;
                   PublicKey := PublicKey w |});
    ("leaders_nonce",
     fun w b => {| WorkersNonce := WorkersNonce w; LeadersNonce := b;
                   PublicKey := PublicKey w |});
    ("public_key",
     fun w b => {| WorkersNonce := WorkersNonce w;
                   LeadersNonce := LeadersNonce w; PublicKey := b |}) ].

Definition Marshal (w : workerAuxInfo) : list byte :=
  json.MarshalStruct [ ("workers_nonce", WorkersNonce w);
                       ("leaders_nonce", LeadersNonce w);
                       ("public_key", PublicKey w) ].

Definition Unmarshal (doc : list byte) : result workerAuxInfo :=
  json.Unmarshal fields zero doc.
End Worker.

Module Leader.
(** [leaderAuxInfo]: the auxiliary information of the leader's
    attestation document. *)
Record leaderAuxInfo : Type := {
  WorkersNonce : nonce;   (* json:"workers_nonce" *)
  EnclaveKeys : slice     (* json:"enclave_keys" *)
}.

Definition zero : leaderAuxInfo :=
  {| WorkersNonce := None; EnclaveKeys := None |}.

Definition fields : list (json.field leaderAuxInfo) :=
  [ ("workers_nonce",
     fun l b => {| WorkersNonce := b; EnclaveKeys := EnclaveKeys l |});
    ("enclave_keys",
     fun l b => {| WorkersNonce := WorkersNonce l; EnclaveKeys := b |}) ].

Definition Marshal (l : leaderAuxInfo) : list byte :=
  json.MarshalStruct [ ("workers_nonce", WorkersNonce l);
                       ("enclave_keys", EnclaveKeys l) ].

Definition Unmarshal (doc : list byte) : result leaderAuxInfo :=
  json.Unmarshal fields zero doc.
End Leader.

Import Worker(workerAuxInfo).
Import Leader(leaderAuxInfo).

(** [auxInfo] is the empty interface.  The dynamic types the program
    names are the two structs, which are the cases of the type switch in
    the production attester's [createAttstn], and the pointers to them,
    which [verifyAttstn] returns.  A value of any other dynamic type is
    known here by what [json.Marshal] gives for it. *)
Inductive auxInfo : Type :=
| workerValue (w : workerAuxInfo)          (* workerAuxInfo{...} *)
| leaderValue (l : leaderAuxInfo)          (* leaderAuxInfo{...} *)
| workerPtr (w : workerAuxInfo)            (* &workerAuxInfo{...} *)
| leaderPtr (l : leaderAuxInfo)            (* &leaderAuxInfo{...} *)
| otherValue (marshalled : result (list byte)).

(** [json.Marshal(aux)]: a pointer is written as the struct it points
    to. *)
Definition json_Marshal (aux : auxInfo) : result (list byte) :=
  match aux with
  | workerValue w | workerPtr w => Ok (Worker.Marshal w)
  | leaderValue l | leaderPtr l => Ok (Leader.Marshal l)
  | otherValue m => m
  end.

(** The predicate [isOurNonce func(string) bool] is a closure over the
    caller's nonce cache, which it may change: it takes the state of its
    owner and returns the new one with its answer. *)
Definition predicate (St : Type) : Type := string -> St -> bool * St.

(** *** dummyAttester *)

Module dummyAttester.
Section dummyAttester.

(** The constant [nonceLen] is declared with the type [nonce]; it is a
    parameter here. *)
Variable nonceLen : nat.
Context {St : Type}.

Definition createAttstn (aux : auxInfo) : result (list byte) :=
  json_Marshal aux.

(** The structural checks of the two shapes. *)
Definition isWorker (w : workerAuxInfo) : bool :=
  (len (Worker.WorkersNonce w) =? nonceLen)%nat
  && (len (Worker.LeadersNonce w) =? nonceLen)%nat
  && negb (isNil (Worker.PublicKey w)).

Definition isLeader (l : leaderAuxInfo) : bool :=
  (len (Leader.WorkersNonce l) =? nonceLen)%nat
  && negb (isNil (Leader.EnclaveKeys l)).

(** The calls of [elog.Println] write to the log only and are left
    out. *)
Definition verifyAttstn (doc : list byte) (isOurNonce : predicate St)
    (st : St) : result auxInfo * St :=
  (* First, assume we're dealing with a worker's auxiliary information. *)
  match Worker.Unmarshal doc with
  | Err err => (Err err, st)
  | Ok w =>
      if isWorker w then
        let (ours, st') := isOurNonce (B64 (Worker.LeadersNonce w)) st in
        if negb ours
        then (Err (errorsNew "leader nonce not in cache"), st')
        else (Ok (workerPtr w), st')
      else
        (* Next, let's assume it's a leader. *)
        match Leader.Unmarshal doc with
        | Err err => (Err err, st)
        | Ok l =>
            if isLeader l then
              let (ours, st') :=
                isOurNonce (B64 (Leader.WorkersNonce l)) st in
              if negb ours
              then (Err (errorsNew "worker nonce not in cache"), st')
              else (Ok (leaderPtr l), st')
            else (Err (errorsNew "invalid auxiliary information"), st)
        end
  end.

End dummyAttester.
End dummyAttester.

(** *** nitroAttester *)

(** The attestation document that [nitrite.Verify] returns, with the
    fields the program reads.  The measurement registers are a map from
    the index of a register to its value. *)
Module nitrite.
Record Document : Type := {
  PCRs : list (nat * list byte);
  Nonce : slice;
  UserData : slice;
  PublicKey : slice
}.
End nitrite.

(** The request and the response of the NSM device. *)
Module nsm.
Record Attestation : Type := {          (* request.Attestation *)
  Nonce : slice;
  UserData : slice;
  PublicKey : slice
}.

Record AttestationResponse : Type := { Document : slice }.

Record Response : Type := { Attestation_ : option AttestationResponse }.
End nsm.

Module nitroAttester.
Section nitroAttester.

Context {St : Type}.

(** The collaborators: the NSM device of [github.com/hf/nsm], the
    verification of [github.com/hf/nitrite], and the functions
    [currentTime], [getPCRValues] and [arePCRsIdentical] of the program,
    which are declared in files that are not part of this development. *)
Variable Session : Type.
Variable Time : Type.
Variable OpenDefaultSession : result Session.
Variable Send : Session -> nsm.Attestation -> result nsm.Response.
Variable currentTime : Time.
Variable Verify : list byte -> Time -> result nitrite.Document.
Variable getPCRValues : result (list (nat * list byte)).
Variable arePCRsIdentical :
  list (nat * list byte) -> list (nat * list byte) -> bool.

(** [n[:]] of a nonce is the slice of its bytes.  The deferred
    [s.Close()] logs its error and changes no result. *)
Definition createAttstn (aux : auxInfo) : result (list byte) :=
  (* Prepare our auxiliary information. *)
  let '(nonce, userData, publicKey) :=
    match aux with
    | workerValue v =>
        (Worker.WorkersNonce v, Worker.LeadersNonce v, Worker.PublicKey v)
    | leaderValue v =>
        (Leader.WorkersNonce v, Leader.EnclaveKeys v, None)
    | _ => (None, None, None)
    end in
  match OpenDefaultSession with
  | Err err => Err err
  | Ok s =>
      match Send s {| nsm.Nonce := nonce; nsm.UserData := userData;
                      nsm.PublicKey := publicKey |} with
      | Err err => Err err
      | Ok res =>
          match nsm.Attestation_ res with
          | Some {| nsm.Document := Some document |} => Ok document
          | _ =>
              Err (errorsNew "NSM device did not return an attestation")
          end
      end
  end.

Definition errStr : string := "error verifying attestation document".

Definition verifyAttstn (doc : list byte) (isOurNonce : predicate St)
    (st : St) : result auxInfo * St :=
  (* Verify the remote enclave's attestation document. *)
  match Verify doc currentTime with
  | Err err => (Err (fmtErrorfW errStr err), st)
  | Ok their =>
      (* Verify that the remote enclave's PCR values are identical to
         ours. *)
      match getPCRValues with
      | Err err => (Err (fmtErrorfW errStr err), st)
      | Ok ourPCRs =>
          if negb (arePCRsIdentical ourPCRs (nitrite.PCRs their)) then
            (Err (fmtErrorf
               (errStr ++
                ": PCR values of remote enclave not identical to ours")),
             st)
          else
            (* Verify that the document contains the nonce that we
               asked it to embed. *)
            let b64Nonce :=
              base64.EncodeToString (contents (nitrite.Nonce their)) in
            let (ours, st') := isOurNonce b64Nonce st in
            if negb ours then
              (Err (fmtErrorf
                 (errStr ++ ": nonce " ++ b64Nonce ++ " not in cache")),
               st')
            else if negb (isNil (nitrite.PublicKey their)) then
              (Ok (workerPtr
                 {| Worker.WorkersNonce := nitrite.Nonce their;
                    Worker.LeadersNonce := nitrite.UserData their;
                    Worker.PublicKey := nitrite.PublicKey their |}), st')
            else
              (Ok (leaderPtr
                 {| Leader.WorkersNonce := nitrite.Nonce their;
                    Leader.EnclaveKeys := nitrite.UserData their |}), st')
      end
  end.

End nitroAttester.
End nitroAttester.

(** *** The nonce cache behind [isOurNonce] *)

(** Modelled from the spec: the nonce cache is declared in a file that is
    not part of this development.  The spec has it hold the Base64 text
    of the nonces that were issued and are outstanding; [isOutstanding]
    checks membership without side effects, and [consume] checks and
    removes, returning false if the nonce was never issued or already
    consumed. *)
Module nonceCache.
Definition cache : Type := list string.

Definition isOutstanding : predicate cache :=
  fun b64 c => (existsb (String.eqb b64) c, c).

Definition consume : predicate cache :=
  fun b64 c =>
    (existsb (String.eqb b64) c,
     filter (fun n => negb (String.eqb b64 n)) c).
End nonceCache.

(** ** The key store [enclaveKeys] *)

(** The struct embeds a [sync.RWMutex], which every method takes for the
    whole of its body: a method is one step on the state of the store.
    [set] and [get] copy the three slice headers, not the bytes behind
    them. *)
Module enclaveKeys.
Record enclaveKeys : Type := {
  NitridingKey : slice;    (* json:"nitriding_key" *)
  NitridingCert : slice;   (* json:"nitriding_cert" *)
  AppKeys : slice          (* json:"app_keys" *)
}.

Definition equal (e1 e2 : enclaveKeys) : bool :=
  bytes.Equal (NitridingCert e1) (NitridingCert e2)
  && bytes.Equal (NitridingKey e1) (NitridingKey e2)
  && bytes.Equal (AppKeys e1) (AppKeys e2).

(** The setters return the store after the call. *)
Definition setAppKeys (e : enclaveKeys) (appKeys : slice) : enclaveKeys :=
  {| NitridingKey := NitridingKey e;
     NitridingCert := NitridingCert e;
     AppKeys := appKeys |}.

Definition setNitridingKeys (e : enclaveKeys) (key cert : slice)
  : enclaveKeys :=
  {| NitridingKey := key; NitridingCert := cert; AppKeys := AppKeys e |}.

Definition set (e newKeys : enclaveKeys) : enclaveKeys :=
  let e1 := {| NitridingKey := NitridingKey newKeys;
               NitridingCert := NitridingCert e;
               AppKeys := AppKeys e |} in
  let e2 := {| NitridingKey := NitridingKey e1;
               NitridingCert := NitridingCert newKeys;
               AppKeys := AppKeys e1 |} in
  {| NitridingKey := NitridingKey e2;
     NitridingCert := NitridingCert e2;
     AppKeys := AppKeys newKeys |}.

(** The getters return their result; they leave the store as it is. *)
Definition get (e : enclaveKeys) : enclaveKeys :=
  {| NitridingKey := NitridingKey e;
     NitridingCert := NitridingCert e;
     AppKeys := AppKeys e |}.

Definition getAppKeys (e : enclaveKeys) : slice := AppKeys e.
End enclaveKeys.

(** ** net/http: the response writer *)

Module http.
Definition StatusOK : nat := 200.
Definition StatusBadRequest : nat := 400.
Definition StatusInternalServerError : nat := 500.
Definition StatusServiceUnavailable : nat := 503.

(** What a handler has sent: the status of the first [WriteHeader], and
    the lines written to the body. *)
Record ResponseWriter : Type := {
  wroteHeader : option nat;
  written : list string
}.

Definition fresh : ResponseWriter :=
  {| wroteHeader := None; written := [] |}.

(** A second [WriteHeader] is superfluous: the status stays. *)
Definition WriteHeader (w : ResponseWriter) (code : nat) : ResponseWriter :=
  match wroteHeader w with
  | Some _ => w
  | None => {| wroteHeader := Some code; written := written w |}
  end.

(** [fmt.Fprintln(w, line)]: a write before any [WriteHeader] sends
    [StatusOK]. *)
Definition Fprintln (w : ResponseWriter) (line : string) : ResponseWriter :=
  let w' := WriteHeader w StatusOK in
  {| wroteHeader := wroteHeader w'; written := written w' ++ [line] |}.

(** [http.Error] *)
Definition Error (w : ResponseWriter) (msg : string) (code : nat)
  : ResponseWriter :=
  Fprintln (WriteHeader w code) msg.

(** The status the client receives: the server sends [StatusOK] for a
    handler that returns without a header. *)
Definition status (w : ResponseWriter) : nat :=
  match wroteHeader w with Some code => code | None => StatusOK end.

Definition isClientError (code : nat) : bool :=
  (400 <=? code)%nat && (code <? 500)%nat.
End http.

(** ** handlers.go *)

(** [err.Error()] *)
Fixpoint Error_ (e : error) : string :=
  match e with
  | errorsNew msg => msg
  | fmtErrorf msg => msg
  | fmtErrorfW msg wrapped => (msg ++ ": " ++ Error_ wrapped)%string
  | jsonError msg => msg
  | foreignError _ => "error"
  end.

Fixpoint error_eqb (a b : error) : bool :=
  match a, b with
  | errorsNew x, errorsNew y => String.eqb x y
  | fmtErrorf x, fmtErrorf y => String.eqb x y
  | fmtErrorfW x a', fmtErrorfW y b' => String.eqb x y && error_eqb a' b'
  | jsonError x, jsonError y => String.eqb x y
  | foreignError n, foreignError m => Nat.eqb n m
  | _, _ => false
  end.

(** [errors.Is(err, target)]: [err] or an error it wraps is [target];
    false for the nil error. *)
Fixpoint unwrapsTo (e target : error) : bool :=
  error_eqb e target
  || match e with
     | fmtErrorfW _ wrapped => unwrapsTo wrapped target
     | _ => false
     end.

Definition errors_Is (err : option error) (target : error) : bool :=
  match err with
  | None => false
  | Some e => unwrapsTo e target
  end.

(** The builtin [copy(dst, src)] on the contents of [dst]. *)
Definition copy (dst src : list byte) : list byte :=
  let n := Nat.min (List.length dst) (List.length src) in
  firstn n src ++ skipn n dst.

Definition errFailedReqBody : error :=
  errorsNew "failed to read request body".
Definition errHashWrongSize : error :=
  errorsNew "given hash is of invalid size".

Definition sha256_Size : nat := 32.

(** The hashes that go into an attestation document; the handlers read and
    write [appKeyHash], an array of [sha256.Size] bytes. *)
Record AttestationHashes : Type := { appKeyHash : list byte }.

(** The request as [attestationHandler] reads it: whether [ParseForm]
    fails, and the values of the query by key. *)
Record Request : Type := {
  ParseForm : option error;
  Query : list (string * list string)
}.

(** [url.Values.Get]: the first value of the key, or the empty string. *)
Fixpoint Get (q : list (string * list string)) (key : string) : string :=
  match q with
  | [] => EmptyString
  | (k, vs) :: q' =>
      if String.eqb k key then
        match vs with
        | v :: _ => v
        | [] => EmptyString
        end
      else Get q' key
  end.

Module handlers.
Section handlers.

(** Declared in files that are not part of this development, and
    parameters here: the reader [newLimitReader] with its error
    [errTooMuchToRead], the errors and messages below, the method
    [Serialize] of the hashes and the function [attest].
    [readAll body limit] stands for
    [io.ReadAll(newLimitReader(body, limit))]: the bytes read, and the
    error that ended the reading if there is one. *)
Variable Body : Type.
Variable readAll : Body -> nat -> list byte * option error.
Variable errTooMuchToRead : error.
Variable errNoBase64 : error.
Variables errProfilingSet errBadForm errNoNonce : string.
Variables errBadNonceFormat errFailedAttestation : string.
Variable Serialize : AttestationHashes -> slice.
Variable attest : slice -> slice -> slice -> result (list byte).

(** [hashHandler(e)]: the response, and [e.hashes.appKeyHash] after the
    request.  After [errFailedReqBody] the source does not return. *)
Definition hashHandler (hashes : AttestationHashes)
    (w : http.ResponseWriter) (body : Body)
  : http.ResponseWriter * AttestationHashes :=
  (* Allow an extra byte for the \n. *)
  let maxReadLen := base64.EncodedLen sha256_Size + 1 in
  let (body, err) := readAll body maxReadLen in
  if errors_Is err errTooMuchToRead then
    (http.Error w (Error_ errTooMuchToRead) http.StatusBadRequest, hashes)
  else
    let w :=
      match err with
      | Some _ =>
          http.Error w (Error_ errFailedReqBody)
                     http.StatusInternalServerError
      | None => w
      end in
    match base64.DecodeString (strings.TrimSpace (stringOf body)) with
    | None =>
        (http.Error w (Error_ errNoBase64) http.StatusBadRequest, hashes)
    | Some keyHash =>
        if negb (List.length keyHash =? sha256_Size)%nat then
          (http.Error w (Error_ errHashWrongSize) http.StatusBadRequest,
           hashes)
        else (w, {| appKeyHash := copy (appKeyHash hashes) keyHash |})
    end.

(** [attestationHandler(useProfiling, hashes)]: the response, and the
    calls of [attest] with their arguments (nonce, user data, public
    key). *)
Definition attestationHandler (useProfiling : bool)
    (hashes : AttestationHashes) (w : http.ResponseWriter) (r : Request)
  : http.ResponseWriter * list (slice * slice * slice) :=
  if useProfiling then
    (http.Error w errProfilingSet http.StatusServiceUnavailable, [])
  else
    match ParseForm r with
    | Some _ => (http.Error w errBadForm http.StatusBadRequest, [])
    | None =>
        let nonce := Get (Query r) "nonce" in
        if String.eqb nonce EmptyString then
          (http.Error w errNoNonce http.StatusBadRequest, [])
        else
          let nonce := strings.ToLower nonce in
          (* Decode hex-encoded nonce. *)
          match hex.DecodeString nonce with
          | None =>
              (http.Error w errBadNonceFormat http.StatusBadRequest, [])
          | Some rawNonce =>
              let call := (Some rawNonce, Serialize hashes, None) in
              match attest (Some rawNonce) (Serialize hashes) None with
              | Err _ =>
                  (http.Error w errFailedAttestation
                              http.StatusInternalServerError, [call])
              | Ok rawDoc =>
                  let b64Doc := base64.EncodeToString rawDoc in
                  (http.Fprintln w b64Doc, [call])
              end
          end
    end.

End handlers.
End handlers.

(** ** handlers.go: the index page and the handlers of the state *)

Definition newline : string := String "010" EmptyString.

(** The maximum length of the key material (in bytes) that enclave
    applications can PUT to our HTTP API. *)
Definition maxKeyMaterialLen : nat := 1024 * 1024.

(** The text of the enclave's index page. *)
Definition indexPage : string :=
  ("This host runs inside an AWS Nitro Enclave." ++ newline)%string.

Definition errFailedGetState : error :=
  errorsNew "failed to retrieve saved state".
Definition errNoAddr : error := errorsNew "parameter 'addr' not found".
Definition errBadSyncAddr : error :=
  errorsNew "invalid 'addr' parameter for sync".

(** [formatIndexPage(appURL)]; the URL is known by its [String()], and
    [None] is the nil pointer. *)
Definition formatIndexPage (appURL : option string) : string :=
  match appURL with
  | None => indexPage
  | Some url =>
      (indexPage
       ++ (newline ++ "It runs the following code: " ++ url ++ newline
           ++ "Use the following tool to verify the enclave: "
           ++ "https://github.com/brave-experiments/verify-enclave"))%string
  end.

(** [rootHandler(cfg)], which reads [cfg.AppURL]. *)
Definition rootHandler (appURL : option string) (w : http.ResponseWriter)
  : http.ResponseWriter :=
  http.Fprintln w (formatIndexPage appURL).

(** [w.Write(b)]: the bytes are written as they are; a write before any
    [WriteHeader] sends [StatusOK]. *)
Definition http_Write (w : http.ResponseWriter) (b : list byte)
  : http.ResponseWriter :=
  let w' := http.WriteHeader w http.StatusOK in
  {| http.wroteHeader := http.wroteHeader w';
     http.written := http.written w' ++ [stringOf b] |}.

(** A response writer with the Content-Type of its header map. *)
Record response : Type := {
  contentType : option string;
  writer : http.ResponseWriter
}.

Definition setContentType (r : response) (v : string) : response :=
  {| contentType := Some v; writer := writer r |}.

(** [http.Error] with the Content-Type it sets. *)
Definition response_Error (r : response) (msg : string) (code : nat)
  : response :=
  {| contentType := Some "text/plain; charset=utf-8";
     writer := http.Error (writer r) msg code |}.

(** [q["addr"]] on [url.Values]: the values of the key, if it is there. *)
Fixpoint lookup (q : list (string * list string)) (key : string)
  : option (list string) :=
  match q with
  | [] => None
  | (k, vs) :: q' => if String.eqb k key then Some vs else lookup q' key
  end.

(** The key material of the enclave is an [any]: the handlers store a byte
    slice, other callers may store another value. *)
Inductive keyMaterial : Type :=
| materialBytes (b : slice)
| materialOther (tag : nat).

(** A channel that carries no value: open or closed.  [close] panics on a
    closed channel ([None]). *)
Inductive chan : Type := chanOpen | chanClosed.

Definition close (c : chan) : option chan :=
  match c with
  | chanOpen => Some chanClosed
  | chanClosed => None
  end.

Module stateHandlers.
Section stateHandlers.

(** Parameters: the enclave with its methods [KeyMaterial] and
    [SetKeyMaterial] and the function [RequestKeys], which are declared in
    files that are not part of this development; [url.Parse], of which the
    handler tests the error only; and the reader of the request body as
    for [hashHandler].  [RequestKeys] is given the address and the getter
    [e.KeyMaterial], so it reads the enclave. *)
Variable Enclave : Type.
Variable KeyMaterial : Enclave -> result keyMaterial.
Variable SetKeyMaterial : Enclave -> keyMaterial -> Enclave.
Variable RequestKeys : string -> Enclave -> option error.
Variable url_Parse : string -> option error.
Variable Body : Type.
Variable readAll : Body -> nat -> list byte * option error.

(** [reqSyncHandler(e)]: the response and the addresses [RequestKeys] was
    called with; [None] is the panic of [addrs[0]] on an empty slice. *)
Definition reqSyncHandler (e : Enclave) (w : http.ResponseWriter)
    (r : Request) : option (http.ResponseWriter * list string) :=
  match lookup (Query r) "addr" with
  | None =>
      Some (http.Error w (Error_ errNoAddr) http.StatusBadRequest, [])
  | Some addrs =>
      match addrs with
      | [] => None
      | addr :: _ =>
          (* Are we dealing with a well-formed URL? *)
          match url_Parse addr with
          | Some _ =>
              Some (http.Error w (Error_ errBadSyncAddr)
                               http.StatusBadRequest, [])
          | None =>
              match RequestKeys addr e with
              | Some err =>
                  Some (http.Error w
                          ("failed to synchronize state: " ++ Error_ err)
                          http.StatusInternalServerError, [addr])
              | None => Some (http.WriteHeader w http.StatusOK, [addr])
              end
          end
      end
  end.

(** [getStateHandler(e)]; [None] is the panic of the type assertion
    [s.([]byte)].  What [w.Write] returns is logged only. *)
Definition getStateHandler (e : Enclave) (r : response) : option response :=
  let r := setContentType r "application/octet-stream" in
  match KeyMaterial e with
  | Err _ =>
      Some (response_Error r (Error_ errFailedGetState)
                           http.StatusInternalServerError)
  | Ok s =>
      match s with
      | materialBytes b =>
          Some {| contentType := contentType r;
                  writer := http_Write (writer r) (contents b) |}
      | materialOther _ => None
      end
  end.

(** [putStateHandler(e)]: the response and the enclave after the
    request. *)
Definition putStateHandler (e : Enclave) (w : http.ResponseWriter)
    (body : Body) : http.ResponseWriter * Enclave :=
  let (body, err) := readAll body maxKeyMaterialLen in
  match err with
  | Some _ =>
      (http.Error w (Error_ errFailedReqBody)
                  http.StatusInternalServerError, e)
  | None =>
      (http.WriteHeader w http.StatusOK,
       SetKeyMaterial e (materialBytes (Some body)))
  end.

End stateHandlers.
End stateHandlers.

(** [readyHandler(e)] on the channel [e.ready]: the channel and the
    response after the request; [None] is the panic of [close]. *)
Definition readyHandler (ready : chan) (w : http.ResponseWriter)
  : option (chan * http.ResponseWriter) :=
  match close ready with
  | None => None
  | Some ready' => Some (ready', http.WriteHeader w http.StatusOK)
  end.

(** ** metrics.go: the Prometheus metrics *)

Module metrics.












End metrics.

(** ** Vocabulary of the statements *)

(** A six-bit value whose character the decoder maps back to it, and which
    is neither a line break nor the padding. *)
Definition sextetOK (n : N) : bool :=
  match base64.dec6 (base64.enc6 n) with
  | Some m => (m =? n)%N
  | None => false
  end
  && negb (base64.isNewline (base64.enc6 n))
  && negb (Ascii.eqb (base64.enc6 n) base64.padChar).

(** The characters a string literal holds as they are. *)
Definition plainChar (c : ascii) : bool :=
  negb (Ascii.eqb c dquote) && negb (Ascii.eqb c "\"%char)
  && negb (N_of_ascii c <? 32)%N.

Fixpoint plain (s : string) : bool :=
  match s with
  | EmptyString => true
  | String c r => plainChar c && plain r
  end.

(** The value a byte slice is written as. *)
Definition valueOf (b : slice) : json.value :=
  match b with
  | None => json.Null
  | Some bs => json.Str (base64.EncodeToString bs)
  end.

(** The member of an object a field is written as. *)
Definition memberOf (m : string * slice) : string * json.value :=
  (fst m, valueOf (snd m)).

(** Sample payloads with nonces of four bytes. *)
Definition sampleWorker : workerAuxInfo :=
  {| Worker.WorkersNonce := Some [x01; x02; x03; x04];
     Worker.LeadersNonce := Some [x05; x06; x07; x08];
     Worker.PublicKey := Some [x09] |}.

Definition sampleLeader : leaderAuxInfo :=
  {| Leader.WorkersNonce := Some [x01; x02; x03; x04];
     Leader.EnclaveKeys := Some [x0a; x0b] |}.

(** The text of an object with the keys of both shapes: nonces of [n]
    zero bytes, an empty public key and an empty key bundle. *)
Definition bothShapes (n : nat) : list byte :=
  json.MarshalStruct [ ("workers_nonce", Some (repeat x00 n));
                       ("leaders_nonce", Some (repeat x00 n));
                       ("public_key", Some []);
                       ("enclave_keys", Some []) ].

(** The text of a leader's payload, nonce of [n] zero bytes and an empty
    key bundle, with a first member public_key whose string is no
    Base64. *)
Definition maskedLeader (n : nat) : list byte :=
  bytesOf
    (String "{"%char (String dquote ("public_key" ++ String dquote
       (String ":"%char (String dquote ("*" ++ String dquote
          (String ","%char
             (json.marshalMembers
                [ ("workers_nonce", Some (repeat x00 n));
                  ("enclave_keys", Some []) ] ++ "}")))))))).

(** A second worker's payload. *)
Definition otherWorker : workerAuxInfo :=
  {| Worker.WorkersNonce := Some [x01; x02; x03; x04];
     Worker.LeadersNonce := Some [x05; x06; x07; x08];
     Worker.PublicKey := Some [] |}.



(** Every character of a string satisfies a test. *)
Fixpoint allOf (P : ascii -> bool) (s : string) : bool :=
  match s with
  | EmptyString => true
  | String c r => P c && allOf P r
  end.

(** A character of ASCII that is no white space. *)
Definition inkChar (c : ascii) : bool :=
  negb (strings.asciiSpace c) && (N_of_ascii c <? 128)%N.

(** An enclave that keeps the key material it was given last. *)
Definition sampleKeyMaterial (e : option keyMaterial) : result keyMaterial :=
  match e with
  | Some k => Ok k
  | None => Err (errorsNew "no key material")
  end.

Definition sampleSetKeyMaterial (e : option keyMaterial) (k : keyMaterial)
  : option keyMaterial := Some k.



(* ===================================================================== *)
(** * Part II: lemmas and theorems                                        *)
(* ===================================================================== *)

(** ** The library functions on known values *)

(** The test vectors of RFC 4648 for Base64. *)
Example EncodeToString_rfc4648 :
  map base64.EncodeToString
      (map bytesOf [""; "f"; "fo"; "foo"; "foob"; "fooba"; "foobar"])
  = [""; "Zg=="; "Zm8="; "Zm9v"; "Zm9vYg=="; "Zm9vYmE="; "Zm9vYmFy"].
Proof. reflexivity. Qed.

(** Padding is accepted at the end only, and a quantum is never left
    incomplete; a line break inside the text is skipped. *)
Example DecodeString_padding :
  map base64.DecodeString
      ["Zm9vYg=="; "Zm9vYg="; "Zm9vYg"; "Zg==Zg==";
       ("Zm9v" ++ String "010" "Yg==")%string]
  = [Some (bytesOf "foob"); None; None; None; Some (bytesOf "foob")].
Proof. reflexivity. Qed.

Example hex_DecodeString_digits :
  map hex.DecodeString ["00ff"; "0aB1"; "0"; "0g"; ""]
  = [Some [x00; xff]; Some [x0a; xb1]; None; None; Some []].
Proof. reflexivity. Qed.

(** White space is trimmed on both sides, the no-break space (bytes 194
    160) included. *)
Example TrimSpace_both_sides :
  strings.TrimSpace
    (String "009" (String "194" (String "160"
       ("a b" ++ String "013" (String "010" EmptyString)))))
  = "a b".
Proof. reflexivity. Qed.

(** An object with white space, an escape, a nested array, a number and a
    literal. *)
Example parse_object :
  json.parse
    (bytesOf
       (" { " ++ String dquote ("k\u0041" ++ String dquote
          (" : [1, -2.5e+3, null] , " ++ String dquote ("b" ++ String dquote
             ":true}")))))
  = Some (json.Object
            [("kA", json.Array [json.Number "1"; json.Number "-2.5e+3";
                                json.Null]);
             ("b", json.Bool true)]).
Proof. reflexivity. Qed.

(** What is no JSON text: a trailing comma, a leading zero, a fraction
    without digits, text after the value, the empty text. *)
Example parse_syntax_errors :
  map (fun s => json.parse (bytesOf s)) ["[1,]"; "01"; "1."; "null x"; ""]
  = [None; None; None; None; None].
Proof. reflexivity. Qed.

(** A key names a field up to case, a member that names no field is
    skipped, and an array of small numbers is read into a byte slice. *)
Example Worker_Unmarshal_keys :
  Worker.Unmarshal
    (bytesOf
       ("{" ++ String dquote ("PUBLIC_KEY" ++ String dquote
          (":[1,2,255]," ++ String dquote ("other" ++ String dquote
             ":{}}")))))
  = Ok {| Worker.WorkersNonce := None;
          Worker.LeadersNonce := None;
          Worker.PublicKey := Some [x01; x02; xff] |}.
Proof. reflexivity. Qed.

(** The document of a worker's payload, as text. *)
Example Worker_Marshal_text :
  stringOf (Worker.Marshal sampleWorker)
  = ("{" ++ String dquote ("workers_nonce" ++ String dquote
       (":" ++ String dquote ("AQIDBA==" ++ String dquote
          ("," ++ String dquote ("leaders_nonce" ++ String dquote
             (":" ++ String dquote ("BQYHCA==" ++ String dquote
                ("," ++ String dquote ("public_key" ++ String dquote
                   (":" ++ String dquote ("CQ==" ++ String dquote
                      "}"))))))))))))%string.
Proof. reflexivity. Qed.

(** ** Bytes and six-bit values *)

Lemma byte_of_N_to_N (b : byte) : byte_of_N (Byte.to_N b) = b.
Proof.
  unfold byte_of_N.
  pose proof (Byte.to_N_bounded b) as Hb.
  rewrite N.mod_small by lia.
  now rewrite Byte.of_to_N.
Qed.

Lemma byte_of_N_small (n : N) (b : byte) :
  (n mod 256 = Byte.to_N b)%N -> byte_of_N n = b.
Proof.
  intros H. unfold byte_of_N. rewrite H. now rewrite Byte.of_to_N.
Qed.

Lemma below_64 (P : N -> bool) :
  forallb (fun k => P (N.of_nat k)) (seq 0 64) = true ->
  forall n, (n < 64)%N -> P n = true.
Proof.
  intros H n Hn.
  rewrite forallb_forall in H.
  specialize (H (N.to_nat n)).
  rewrite N2Nat.id in H. apply H.
  apply in_seq. lia.
Qed.

Lemma to_N_lt (b : byte) : (Byte.to_N b < 256)%N.
Proof. pose proof (Byte.to_N_bounded b). lia. Qed.

(** Arithmetic on bytes: the numbers are bounded, and divisions and
    remainders by constants become linear. *)
Ltac byte_arith :=
  repeat match goal with
         | b : byte |- _ =>
             pose proof (to_N_lt b);
             generalize dependent (Byte.to_N b); clear b; intros
         end;
  zify; Z.to_euclidean_division_equations; lia.

(** ** Base64 *)

Lemma sextetOK_below_64 (n : N) : (n < 64)%N -> sextetOK n = true.
Proof. apply below_64. vm_compute. reflexivity. Qed.

Lemma dec6_enc6 (n : N) :
  (n < 64)%N -> base64.dec6 (base64.enc6 n) = Some n.
Proof.
  intros H. apply sextetOK_below_64 in H. unfold sextetOK in H.
  apply andb_prop in H. destruct H as [H _].
  apply andb_prop in H. destruct H as [H _].
  destruct (base64.dec6 (base64.enc6 n)); [|discriminate].
  apply N.eqb_eq in H. now subst.
Qed.

Lemma enc6_not_newline (n : N) :
  (n < 64)%N -> base64.isNewline (base64.enc6 n) = false.
Proof.
  intros H. apply sextetOK_below_64 in H. unfold sextetOK in H.
  apply andb_prop in H. destruct H as [H _].
  apply andb_prop in H. destruct H as [_ H].
  now apply negb_true_iff in H.
Qed.

Lemma enc6_not_pad (n : N) :
  (n < 64)%N -> Ascii.eqb (base64.enc6 n) base64.padChar = false.
Proof.
  intros H. apply sextetOK_below_64 in H. unfold sextetOK in H.
  apply andb_prop in H. destruct H as [_ H].
  now apply negb_true_iff in H.
Qed.

(** Lists three elements at a time, as the encoder reads them. *)
Lemma list_ind3 {A} (P : list A -> Prop) :
  P [] -> (forall a, P [a]) -> (forall a b, P [a; b]) ->
  (forall a b c l, P l -> P (a :: b :: c :: l)) ->
  forall l, P l.
Proof.
  intros H0 H1 H2 H3.
  fix IH 1.
  intros [|a [|b [|c l]]].
  - exact H0.
  - apply H1.
  - apply H2.
  - apply H3. apply IH.
Qed.

Lemma dropNewlines_Encode (bs : list byte) :
  base64.dropNewlines (base64.EncodeToString bs) = base64.EncodeToString bs.
Proof.
  induction bs as [|a|a b|a b c l IH] using list_ind3;
    cbn [base64.EncodeToString base64.dropNewlines].
  - reflexivity.
  - rewrite !enc6_not_newline by byte_arith. reflexivity.
  - rewrite !enc6_not_newline by byte_arith. reflexivity.
  - rewrite !enc6_not_newline by byte_arith. now rewrite IH.
Qed.

Lemma decodeQuanta_Encode (bs : list byte) :
  base64.decodeQuanta (base64.EncodeToString bs) = Some bs.
Proof.
  induction bs as [|a|a b|a b c l IH] using list_ind3;
    cbn [base64.EncodeToString base64.decodeQuanta].
  - reflexivity.
  - rewrite !dec6_enc6 by byte_arith.
    cbn. f_equal. f_equal. apply byte_of_N_small. byte_arith.
  - rewrite !dec6_enc6 by byte_arith.
    rewrite enc6_not_pad by byte_arith.
    cbn. f_equal. f_equal; [|f_equal]; apply byte_of_N_small; byte_arith.
  - rewrite !dec6_enc6 by byte_arith.
    rewrite !enc6_not_pad by byte_arith.
    rewrite IH.
    f_equal. f_equal; [|f_equal; [|f_equal]];
      apply byte_of_N_small; byte_arith.
Qed.

(** What was encoded is decoded. *)
Lemma DecodeString_EncodeToString (bs : list byte) :
  base64.DecodeString (base64.EncodeToString bs) = Some bs.
Proof.
  unfold base64.DecodeString.
  now rewrite dropNewlines_Encode, decodeQuanta_Encode.
Qed.

(** ** JSON: the text of a marshalled struct is read back *)

Lemma append_String_assoc (a b c : string) :
  ((a ++ b) ++ c)%string = (a ++ (b ++ c))%string.
Proof. induction a as [|x a IH]; cbn; [reflexivity | now rewrite IH]. Qed.

Lemma stringBody_plain (s rest : string) :
  plain s = true ->
  json.stringBody (s ++ String dquote rest) = Some (s, rest).
Proof.
  induction s as [|c s IH]; intros Hs.
  - reflexivity.
  - cbn [plain] in Hs. apply andb_prop in Hs. destruct Hs as [Hc Hs].
    unfold plainChar in Hc.
    apply andb_prop in Hc. destruct Hc as [Hc H32].
    apply andb_prop in Hc. destruct Hc as [Hq Hb].
    apply negb_true_iff in Hq, Hb, H32.
    cbn [append json.stringBody].
    rewrite Hq, Hb, H32, (IH Hs). reflexivity.
Qed.

Lemma plain_app (a b : string) :
  plain a = true -> plain b = true -> plain (a ++ b) = true.
Proof.
  induction a as [|c a IH]; cbn; [auto|].
  intros H Hb. apply andb_prop in H. destruct H as [Hc Ha].
  now rewrite Hc, IH.
Qed.

Lemma plain_enc6 (n : N) : (n < 64)%N -> plainChar (base64.enc6 n) = true.
Proof.
  apply (below_64 (fun n => plainChar (base64.enc6 n))).
  vm_compute. reflexivity.
Qed.

Lemma plain_Encode (bs : list byte) :
  plain (base64.EncodeToString bs) = true.
Proof.
  induction bs as [|a|a b|a b c l IH] using list_ind3;
    cbn [base64.EncodeToString plain].
  - reflexivity.
  - rewrite !plain_enc6 by byte_arith. reflexivity.
  - rewrite !plain_enc6 by byte_arith. reflexivity.
  - rewrite !plain_enc6 by byte_arith. now rewrite IH.
Qed.

Lemma skipSpace_marshalBytes (b : slice) (rest : string) :
  json.skipSpace (json.marshalBytes b ++ rest)
  = (json.marshalBytes b ++ rest)%string.
Proof. destruct b; reflexivity. Qed.

Lemma parseValue_marshalBytes (fuel : nat) (depth : N) (b : slice)
    (rest : string) :
  json.parseValue (S fuel) depth (json.marshalBytes b ++ rest)
  = Some (valueOf b, rest).
Proof.
  destruct b as [bs|].
  - cbn [json.marshalBytes append json.parseValue].
    replace (Ascii.eqb dquote "{"%char) with false by reflexivity.
    replace (Ascii.eqb dquote "["%char) with false by reflexivity.
    rewrite Ascii.eqb_refl.
    repeat first [rewrite append_String_assoc | progress cbn [append]].
    rewrite stringBody_plain by apply plain_Encode.
    reflexivity.
  - reflexivity.
Qed.

Lemma marshalMembers_cons (m : string * slice) (ms : list (string * slice))
    (rest : string) :
  (json.marshalMembers (m :: ms) ++ rest)%string
  = String dquote
      (fst m ++ String dquote (String ":"%char
         (json.marshalBytes (snd m) ++
            match ms with
            | [] => rest
            | _ :: _ => String ","%char (json.marshalMembers ms ++ rest)
            end)))%string.
Proof.
  destruct ms as [|m' ms]; cbn [json.marshalMembers];
    unfold json.marshalMember at 1;
    repeat first [rewrite append_String_assoc | progress cbn [append]];
    reflexivity.
Qed.

Lemma skipSpace_nonspace (c : ascii) (r : string) :
  json.isSpace c = false -> json.skipSpace (String c r) = String c r.
Proof. intros H. cbn [json.skipSpace]. now rewrite H. Qed.

Lemma after_same (c : ascii) (r : string) :
  json.after c (String c r) = Some r.
Proof. cbn [json.after]. now rewrite Ascii.eqb_refl. Qed.

Lemma after_other (x c : ascii) (r : string) :
  Ascii.eqb x c = false -> json.after c (String x r) = None.
Proof. intros H. cbn [json.after]. now rewrite H. Qed.

Lemma marshalMembers_head (ms : list (string * slice)) (rest : string) :
  ms <> [] ->
  exists t, (json.marshalMembers ms ++ rest)%string = String dquote t.
Proof.
  destruct ms as [|m ms]; [congruence|].
  intros _. rewrite marshalMembers_cons. eauto.
Qed.

Lemma parseMembers_marshal (ms : list (string * slice)) :
  ms <> [] ->
  forallb (fun m => plain (fst m)) ms = true ->
  forall (fuel : nat) (depth : N) (rest : string),
    List.length ms < fuel ->
    json.parseMembers fuel depth
      (json.marshalMembers ms ++ String "}"%char rest)
    = Some (map memberOf ms, rest).
Proof.
  induction ms as [|m ms IH]; [congruence|].
  intros _ Hp fuel depth rest Hf.
  cbn [forallb] in Hp. apply andb_prop in Hp. destruct Hp as [Hk Hp].
  destruct fuel as [|fuel]; cbn [List.length] in Hf; [lia|].
  rewrite marshalMembers_cons.
  cbn [json.parseMembers]. rewrite after_same.
  destruct fuel as [|fuel]; [lia|].
  rewrite stringBody_plain by exact Hk.
  rewrite (skipSpace_nonspace ":"%char) by reflexivity.
  rewrite after_same.
  rewrite skipSpace_marshalBytes, parseValue_marshalBytes.
  destruct ms as [|m' ms].
  - rewrite (skipSpace_nonspace "}"%char) by reflexivity.
    rewrite after_other by reflexivity. rewrite after_same. reflexivity.
  - rewrite (skipSpace_nonspace ","%char) by reflexivity.
    rewrite after_same.
    assert (Hne : m' :: ms <> []) by congruence.
    specialize (IH Hne Hp (S fuel) depth rest).
    destruct (marshalMembers_head (m' :: ms) (String "}"%char rest) Hne)
      as [t Ht].
    rewrite Ht in *.
    rewrite (skipSpace_nonspace dquote) by reflexivity.
    rewrite IH by (cbn [List.length] in *; lia).
    reflexivity.
Qed.

Lemma length_append (a b : string) :
  String.length (a ++ b) = String.length a + String.length b.
Proof. induction a as [|c a IH]; cbn; [reflexivity | now rewrite IH]. Qed.

Lemma length_marshalMembers (ms : list (string * slice)) (rest : string) :
  List.length ms <= String.length (json.marshalMembers ms ++ rest).
Proof.
  induction ms as [|m ms IH]; [cbn; lia|].
  rewrite marshalMembers_cons. cbn [String.length List.length].
  rewrite length_append. cbn [String.length].
  rewrite length_append.
  destruct ms as [|m' ms]; [cbn; lia|].
  cbn [String.length]. cbn [List.length] in *. lia.
Qed.

Lemma stringOf_bytesOf (s : string) : stringOf (bytesOf s) = s.
Proof. apply string_of_list_byte_of_string. Qed.

(** The parser reads the text of [MarshalStruct] as the object of its
    members. *)
Lemma parse_MarshalStruct (ms : list (string * slice)) :
  forallb (fun m => plain (fst m)) ms = true ->
  json.parse (json.MarshalStruct ms) = Some (json.Object (map memberOf ms)).
Proof.
  intros Hp. unfold json.parse, json.MarshalStruct.
  rewrite stringOf_bytesOf.
  rewrite (skipSpace_nonspace "{"%char) by reflexivity.
  pose proof (length_marshalMembers ms "}") as Hlen.
  assert (Hfuel : List.length ms <
                  String.length (String "{" (json.marshalMembers ms ++ "}")))
    by (cbn [String.length]; lia).
  clear Hlen.
  set (fuel := String.length _) in *.
  cbn [json.parseValue].
  replace (Ascii.eqb "{" "{") with true by reflexivity.
  replace (json.maxNestingDepth <? 0 + 1)%N with false by reflexivity.
  destruct ms as [|m ms].
  - reflexivity.
  - assert (Hne : m :: ms <> []) by congruence.
    pose proof (parseMembers_marshal (m :: ms) Hne Hp fuel
                  (0 + 1)%N EmptyString Hfuel) as Hm.
    destruct (marshalMembers_head (m :: ms) "}" Hne) as [t Ht].
    rewrite Ht in *.
    rewrite (skipSpace_nonspace dquote) by reflexivity.
    rewrite after_other by reflexivity.
    rewrite Hm.
    reflexivity.
Qed.

Lemma byteSlice_valueOf (b : slice) : json.byteSlice (valueOf b) = Some b.
Proof.
  destruct b as [bs|]; cbn [valueOf json.byteSlice]; [|reflexivity].
  now rewrite DecodeString_EncodeToString.
Qed.

Lemma object_field {T} (fields : list (json.field T)) (f : json.field T)
    (key : string) (b : slice) (ms : list (string * json.value)) (t : T) :
  json.fieldOf fields key = Some f ->
  json.object fields ((key, valueOf b) :: ms) t
  = json.object fields ms (snd f t b).
Proof.
  intros Hf. cbn [json.object]. now rewrite Hf, byteSlice_valueOf.
Qed.

Lemma object_skip {T} (fields : list (json.field T)) (key : string)
    (v : json.value) (ms : list (string * json.value)) (t : T) :
  json.fieldOf fields key = None ->
  json.object fields ((key, v) :: ms) t = json.object fields ms t.
Proof. intros Hf. cbn [json.object]. now rewrite Hf. Qed.

(** ** The parser does not run short of fuel *)

Ltac break_match_hyp H :=
  repeat match type of H with
         | context [match ?x with _ => _ end] =>
             let E := fresh "E" in destruct x eqn:E; try discriminate H
         end.

Lemma skipSpace_length (s : string) :
  String.length (json.skipSpace s) <= String.length s.
Proof.
  induction s as [|c s IH]; cbn [json.skipSpace]; [lia|].
  destruct (json.isSpace c); cbn [String.length] in *; lia.
Qed.

Lemma after_length (c : ascii) (s r : string) :
  json.after c s = Some r -> String.length s = S (String.length r).
Proof.
  destruct s as [|x s]; cbn [json.after]; [discriminate|].
  destruct (Ascii.eqb x c); [|discriminate].
  intros H. injection H as <-. reflexivity.
Qed.

Lemma digits_length (s d r : string) :
  json.digits s = (d, r) ->
  String.length s = String.length d + String.length r.
Proof.
  revert d r. induction s as [|c s IH]; intros d r; cbn [json.digits].
  - intros H. injection H as <- <-. reflexivity.
  - destruct (json.isDigit c).
    + destruct (json.digits s) as [d' r'] eqn:E.
      intros H. injection H as <- <-.
      cbn [String.length]. rewrite (IH _ _ eq_refl). reflexivity.
    + intros H. injection H as <- <-. reflexivity.
Qed.

Lemma someDigits_length (s d r : string) :
  json.someDigits s = Some (d, r) -> String.length r < String.length s.
Proof.
  unfold json.someDigits. destruct (json.digits s) as [d' r'] eqn:E.
  apply digits_length in E.
  destruct d' as [|c d']; [discriminate|].
  intros H. injection H as <- <-. cbn [String.length] in E. lia.
Qed.

Lemma minus_length (s sg r : string) :
  json.minus s = (sg, r) -> String.length r <= String.length s.
Proof.
  unfold json.minus. destruct (json.after "-" s) as [r'|] eqn:E.
  - apply after_length in E. intros H. injection H as <- <-. lia.
  - intros H. injection H as <- <-. lia.
Qed.

Lemma sign_length (s sg r : string) :
  json.sign s = (sg, r) -> String.length r <= String.length s.
Proof.
  unfold json.sign. destruct (json.after "+" s) as [r'|] eqn:E.
  - apply after_length in E. intros H. injection H as <- <-. lia.
  - apply minus_length.
Qed.

Lemma integer_length (s i r : string) :
  json.integer s = Some (i, r) -> String.length r < String.length s.
Proof.
  unfold json.integer. destruct (json.after "0" s) as [r'|] eqn:E.
  - apply after_length in E. intros H. injection H as <- <-. lia.
  - apply someDigits_length.
Qed.

Lemma fraction_length (s f r : string) :
  json.fraction s = Some (f, r) -> String.length r <= String.length s.
Proof.
  unfold json.fraction. destruct (json.after "." s) as [r'|] eqn:E.
  - apply after_length in E.
    destruct (json.someDigits r') as [[d r'']|] eqn:E'; [|discriminate].
    apply someDigits_length in E'.
    intros H. injection H as <- <-. lia.
  - intros H. injection H as <- <-. lia.
Qed.

Lemma exponent_length (s x r : string) :
  json.exponent s = Some (x, r) -> String.length r <= String.length s.
Proof.
  unfold json.exponent. destruct s as [|e s].
  - intros H. injection H as <- <-. lia.
  - destruct (Ascii.eqb e "e" || Ascii.eqb e "E").
    + destruct (json.sign s) as [sg r1] eqn:E. apply sign_length in E.
      destruct (json.someDigits r1) as [[d r']|] eqn:E'; [|discriminate].
      apply someDigits_length in E'.
      intros H. injection H as <- <-. cbn [String.length]. lia.
    + intros H. injection H as <- <-. lia.
Qed.

Lemma number_length (s lit r : string) :
  json.number s = Some (lit, r) -> String.length r < String.length s.
Proof.
  unfold json.number.
  destruct (json.minus s) as [sg s1] eqn:E1. apply minus_length in E1.
  destruct (json.integer s1) as [[i s2]|] eqn:E2; [|discriminate].
  apply integer_length in E2.
  destruct (json.fraction s2) as [[f s3]|] eqn:E3; [|discriminate].
  apply fraction_length in E3.
  destruct (json.exponent s3) as [[x s4]|] eqn:E4; [|discriminate].
  apply exponent_length in E4.
  intros H. injection H as <- <-. lia.
Qed.

Lemma stripPrefix_length (p s r : string) :
  json.stripPrefix p s = Some r ->
  String.length s = String.length p + String.length r.
Proof.
  revert s. induction p as [|a p IH]; intros s; cbn [json.stripPrefix].
  - intros H. injection H as <-. reflexivity.
  - destruct s as [|b s]; [discriminate|].
    destruct (Ascii.eqb a b); [|discriminate].
    intros H. apply IH in H. cbn [String.length]. lia.
Qed.

Ltac break_matches :=
  repeat match goal with
         | H : context [match ?x with _ => _ end] |- _ =>
             let E := fresh "E" in destruct x eqn:E; try discriminate H
         end.

Lemma stringBody_length_le (n : nat) :
  forall s t r,
    String.length s <= n ->
    json.stringBody s = Some (t, r) -> String.length r < String.length s.
Proof.
  induction n as [|n IH]; intros s t r Hn H.
  - destruct s; [discriminate | cbn [String.length] in Hn; lia].
  - destruct s as [|c s]; [discriminate|].
    cbn [String.length] in Hn.
    cbn [json.stringBody] in H.
    break_matches; subst;
      repeat match goal with
             | E : json.stringBody ?x = Some (_, _) |- _ =>
                 apply IH in E; [|cbn [String.length] in *; lia]
             | E : Some _ = Some _ |- _ => injection E as E
             | E : (_, _) = (_, _) |- _ => injection E as E
             end;
      subst; cbn [String.length] in *; try lia; try discriminate.
Qed.

Lemma stringBody_length (s t r : string) :
  json.stringBody s = Some (t, r) -> String.length r < String.length s.
Proof. apply (stringBody_length_le (String.length s)). lia. Qed.

Ltac note H :=
  let T := type of H in
  lazymatch goal with
  | _ : T |- _ => fail
  | _ => pose proof H
  end.

Ltac lengths :=
  repeat match goal with
         | E : json.after _ _ = Some _ |- _ => note (after_length _ _ _ E)
         | E : json.stringBody _ = Some _ |- _ =>
             note (stringBody_length _ _ _ E)
         | E : json.number _ = Some _ |- _ => note (number_length _ _ _ E)
         | E : json.stripPrefix _ _ = Some _ |- _ =>
             note (stripPrefix_length _ _ _ E)
         | |- context [json.skipSpace ?s] => note (skipSpace_length s)
         | _ : context [json.skipSpace ?s] |- _ => note (skipSpace_length s)
         end;
  cbn [String.length] in *.

Ltac replay :=
  repeat match goal with
         | E : ?x = _ |- context [match ?x with _ => _ end] => rewrite E
         | E : ?x = _ |- context [if ?x then _ else _] => rewrite E
         | Hf : forall f', _ <= f' -> ?P f' ?d ?s = _
           |- context [?P ?f ?d ?s] =>
             rewrite (Hf f) by (lengths; lia)
         end.

Ltac invert_results IHv IHm IHe :=
  repeat match goal with
         | E : json.parseValue _ _ _ = Some _ |- _ =>
             apply IHv in E; destruct E
         | E : json.parseMembers _ _ _ = Some _ |- _ =>
             apply IHm in E; destruct E
         | E : json.parseElements _ _ _ = Some _ |- _ =>
             apply IHe in E; destruct E
         | E : Some _ = Some _ |- _ => injection E as E
         | E : (_, _) = (_, _) |- _ => injection E as E
         end;
  subst; try discriminate.

(** A parse that succeeds with some fuel consumes text, and succeeds with
    the same result on any fuel that is at least the length of what it
    consumes. *)
Lemma parse_fuel (fuel : nat) :
  (forall d s v r,
      json.parseValue fuel d s = Some (v, r) ->
      String.length r < String.length s
      /\ forall fuel',
           String.length s - String.length r <= fuel' ->
           json.parseValue fuel' d s = Some (v, r))
  /\ (forall d s ms r,
         json.parseMembers fuel d s = Some (ms, r) ->
         String.length r < String.length s
         /\ forall fuel',
              String.length s - String.length r <= fuel' ->
              json.parseMembers fuel' d s = Some (ms, r))
  /\ (forall d s xs r,
         json.parseElements fuel d s = Some (xs, r) ->
         String.length r < String.length s
         /\ forall fuel',
              String.length s - String.length r <= fuel' ->
              json.parseElements fuel' d s = Some (xs, r)).
Proof.
  induction fuel as [|fuel (IHv & IHm & IHe)].
  - repeat split; discriminate.
  - split; [|split].
    + intros d s v r H. destruct s as [|c s]; [discriminate|].
      cbn [json.parseValue] in H. unfold option_map in H.
      break_matches; invert_results IHv IHm IHe.
      all: split; [lengths; lia|].
      all: intros [|fuel'] Hf; [lengths; lia|].
      all: cbn [json.parseValue]; unfold option_map; replay;
        try reflexivity.
    + intros d s ms r H.
      cbn [json.parseMembers] in H.
      break_matches; invert_results IHv IHm IHe.
      all: split; [lengths; lia|].
      all: intros [|fuel'] Hf; [lengths; lia|].
      all: cbn [json.parseMembers]; replay; try reflexivity.
    + intros d s xs r H.
      cbn [json.parseElements] in H.
      break_matches; invert_results IHv IHm IHe.
      all: split; [lengths; lia|].
      all: intros [|fuel'] Hf; [lengths; lia|].
      all: cbn [json.parseElements]; replay; try reflexivity.
Qed.

(** [json.parse] gives the parser enough fuel: it finds the value that
    any amount of fuel finds. *)
Lemma parse_any_fuel (doc : list byte) (v : json.value) :
  json.parse doc = Some v
  <-> exists fuel rest,
        json.parseValue fuel 0 (json.skipSpace (stringOf doc))
        = Some (v, rest)
        /\ json.skipSpace rest = EmptyString.
Proof.
  unfold json.parse. split.
  - destruct (json.parseValue _ 0 _) as [[v' rest]|] eqn:E; [|discriminate].
    destruct (json.skipSpace rest) eqn:Er; [|discriminate].
    intros H. injection H as <-. eauto.
  - intros (fuel & rest & E & Er).
    apply (proj1 (parse_fuel fuel)) in E. destruct E as [_ E].
    rewrite E.
    + now rewrite Er.
    + pose proof (skipSpace_length (stringOf doc)). lia.
Qed.

(** ** The dummy attester's documents *)

Lemma Worker_Unmarshal_Marshal (w : workerAuxInfo) :
  Worker.Unmarshal (Worker.Marshal w) = Ok w.
Proof.
  unfold Worker.Unmarshal, Worker.Marshal, json.Unmarshal.
  rewrite parse_MarshalStruct by reflexivity.
  cbn [map]. unfold memberOf. cbn [fst snd].
  do 3 (erewrite object_field by reflexivity).
  destruct w; reflexivity.
Qed.

Lemma Leader_Unmarshal_Marshal (l : leaderAuxInfo) :
  Leader.Unmarshal (Leader.Marshal l) = Ok l.
Proof.
  unfold Leader.Unmarshal, Leader.Marshal, json.Unmarshal.
  rewrite parse_MarshalStruct by reflexivity.
  cbn [map]. unfold memberOf. cbn [fst snd].
  do 2 (erewrite object_field by reflexivity).
  destruct l; reflexivity.
Qed.

(** A worker's document read as a leader's: the keys [leaders_nonce] and
    [public_key] name no field and are skipped. *)
Lemma Leader_Unmarshal_Worker_Marshal (w : workerAuxInfo) :
  Leader.Unmarshal (Worker.Marshal w)
  = Ok {| Leader.WorkersNonce := Worker.WorkersNonce w;
          Leader.EnclaveKeys := None |}.
Proof.
  unfold Leader.Unmarshal, Worker.Marshal, json.Unmarshal.
  rewrite parse_MarshalStruct by reflexivity.
  cbn [map]. unfold memberOf. cbn [fst snd].
  erewrite object_field by reflexivity.
  do 2 (rewrite object_skip by reflexivity).
  reflexivity.
Qed.

(** A leader's document read as a worker's. *)
Lemma Worker_Unmarshal_Leader_Marshal (l : leaderAuxInfo) :
  Worker.Unmarshal (Leader.Marshal l)
  = Ok {| Worker.WorkersNonce := Leader.WorkersNonce l;
          Worker.LeadersNonce := None;
          Worker.PublicKey := None |}.
Proof.
  unfold Worker.Unmarshal, Leader.Marshal, json.Unmarshal.
  rewrite parse_MarshalStruct by reflexivity.
  cbn [map]. unfold memberOf. cbn [fst snd].
  erewrite object_field by reflexivity.
  rewrite object_skip by reflexivity.
  reflexivity.
Qed.

(** ** The attesters *)

Section dummy_facts.
Variable nonceLen : nat.
Context {St : Type}.
Variable isOurNonce : predicate St.

(** How a successful verification came about. *)
Lemma dummy_verifyAttstn_Ok (doc : list byte) (st st' : St)
    (aux : auxInfo) :
  dummyAttester.verifyAttstn nonceLen doc isOurNonce st = (Ok aux, st') ->
  (exists w,
      Worker.Unmarshal doc = Ok w
      /\ dummyAttester.isWorker nonceLen w = true
      /\ isOurNonce (B64 (Worker.LeadersNonce w)) st = (true, st')
      /\ aux = workerPtr w)
  \/ (exists w l,
         Worker.Unmarshal doc = Ok w
         /\ dummyAttester.isWorker nonceLen w = false
         /\ Leader.Unmarshal doc = Ok l
         /\ dummyAttester.isLeader nonceLen l = true
         /\ isOurNonce (B64 (Leader.WorkersNonce l)) st = (true, st')
         /\ aux = leaderPtr l).
Proof.
  unfold dummyAttester.verifyAttstn.
  destruct (Worker.Unmarshal doc) as [w|e]; [|discriminate].
  destruct (dummyAttester.isWorker nonceLen w) eqn:Hw.
  - destruct (isOurNonce (B64 (Worker.LeadersNonce w)) st)
      as [[|] s] eqn:Hp; cbn; [|discriminate].
    intros H. injection H as <- <-. left. exists w. auto.
  - destruct (Leader.Unmarshal doc) as [l|e]; [|discriminate].
    destruct (dummyAttester.isLeader nonceLen l) eqn:Hl; [|discriminate].
    destruct (isOurNonce (B64 (Leader.WorkersNonce l)) st)
      as [[|] s] eqn:Hp; cbn; [|discriminate].
    intros H. injection H as <- <-. right. exists w, l. auto 6.
Qed.

(** A worker's payload that passes its check is verified as such. *)
Lemma dummy_verifyAttstn_worker (doc : list byte) (st : St)
    (w : workerAuxInfo) :
  Worker.Unmarshal doc = Ok w ->
  dummyAttester.isWorker nonceLen w = true ->
  dummyAttester.verifyAttstn nonceLen doc isOurNonce st
  = let (ours, st') := isOurNonce (B64 (Worker.LeadersNonce w)) st in
    if ours then (Ok (workerPtr w), st')
    else (Err (errorsNew "leader nonce not in cache"), st').
Proof.
  intros Hd Hw. unfold dummyAttester.verifyAttstn. rewrite Hd, Hw.
  destruct (isOurNonce _ st) as [[|] s]; reflexivity.
Qed.

(** A leader's payload is verified as such when the worker's check
    fails. *)
Lemma dummy_verifyAttstn_leader (doc : list byte) (st : St)
    (w : workerAuxInfo) (l : leaderAuxInfo) :
  Worker.Unmarshal doc = Ok w ->
  dummyAttester.isWorker nonceLen w = false ->
  Leader.Unmarshal doc = Ok l ->
  dummyAttester.isLeader nonceLen l = true ->
  dummyAttester.verifyAttstn nonceLen doc isOurNonce st
  = let (ours, st') := isOurNonce (B64 (Leader.WorkersNonce l)) st in
    if ours then (Ok (leaderPtr l), st')
    else (Err (errorsNew "worker nonce not in cache"), st').
Proof.
  intros Hd Hw Hd' Hl. unfold dummyAttester.verifyAttstn.
  rewrite Hd, Hw, Hd', Hl.
  destruct (isOurNonce _ st) as [[|] s]; reflexivity.
Qed.
End dummy_facts.

Section nitro_facts.
Context {St : Type}.
Variable Time : Type.
Variable currentTime : Time.
Variable Verify : list byte -> Time -> result nitrite.Document.
Variable getPCRValues : result (list (nat * list byte)).
Variable arePCRsIdentical :
  list (nat * list byte) -> list (nat * list byte) -> bool.
Variable isOurNonce : predicate St.

Let verify :=
  nitroAttester.verifyAttstn (St:=St) Time currentTime Verify getPCRValues
                             arePCRsIdentical.

(** How a successful verification came about. *)
Lemma nitro_verifyAttstn_Ok (doc : list byte) (st st' : St)
    (aux : auxInfo) :
  verify doc isOurNonce st = (Ok aux, st') ->
  exists their ourPCRs,
    Verify doc currentTime = Ok their
    /\ getPCRValues = Ok ourPCRs
    /\ arePCRsIdentical ourPCRs (nitrite.PCRs their) = true
    /\ isOurNonce (base64.EncodeToString (contents (nitrite.Nonce their)))
                  st = (true, st')
    /\ aux =
       if negb (isNil (nitrite.PublicKey their)) then
         workerPtr {| Worker.WorkersNonce := nitrite.Nonce their;
                      Worker.LeadersNonce := nitrite.UserData their;
                      Worker.PublicKey := nitrite.PublicKey their |}
       else
         leaderPtr {| Leader.WorkersNonce := nitrite.Nonce their;
                      Leader.EnclaveKeys := nitrite.UserData their |}.
Proof.
  unfold verify, nitroAttester.verifyAttstn.
  destruct (Verify doc currentTime) as [their|e]; [|discriminate].
  destruct getPCRValues as [ourPCRs|e]; [|discriminate].
  destruct (arePCRsIdentical ourPCRs (nitrite.PCRs their)) eqn:Hpcr;
    [|discriminate].
  cbn [negb].
  destruct (isOurNonce _ st) as [[|] s] eqn:Hp; cbn [negb];
    [|discriminate].
  intros H. exists their, ourPCRs.
  destruct (isNil (nitrite.PublicKey their)); cbn [negb] in *;
    injection H as <- <-; auto.
Qed.

(** What the verification does with a document that [nitrite.Verify]
    accepts and whose registers are ours. *)
Lemma nitro_verifyAttstn_verified (doc : list byte) (st : St)
    (their : nitrite.Document) (ourPCRs : list (nat * list byte)) :
  Verify doc currentTime = Ok their ->
  getPCRValues = Ok ourPCRs ->
  arePCRsIdentical ourPCRs (nitrite.PCRs their) = true ->
  verify doc isOurNonce st
  = let b64Nonce :=
      base64.EncodeToString (contents (nitrite.Nonce their)) in
    let (ours, st') := isOurNonce b64Nonce st in
    if ours then
      if isNil (nitrite.PublicKey their) then
        (Ok (leaderPtr {| Leader.WorkersNonce := nitrite.Nonce their;
                          Leader.EnclaveKeys := nitrite.UserData their |}),
         st')
      else
        (Ok (workerPtr {| Worker.WorkersNonce := nitrite.Nonce their;
                          Worker.LeadersNonce := nitrite.UserData their;
                          Worker.PublicKey := nitrite.PublicKey their |}),
         st')
    else
      (Err (fmtErrorf
         (nitroAttester.errStr ++ ": nonce " ++ b64Nonce
          ++ " not in cache")), st').
Proof.
  intros Hv Hg Hp. unfold verify, nitroAttester.verifyAttstn.
  rewrite Hv, Hg, Hp. cbn [negb].
  destruct (isOurNonce _ st) as [[|] s]; cbn [negb]; [|reflexivity].
  destruct (isNil (nitrite.PublicKey their)); reflexivity.
Qed.
End nitro_facts.

(** ** The nonce cache *)

Lemma consume_twice (b64 : string) (c : nonceCache.cache) :
  fst (nonceCache.consume b64 (snd (nonceCache.consume b64 c))) = false.
Proof.
  unfold nonceCache.consume. cbn [fst snd].
  induction c as [|n c IH]; [reflexivity|].
  cbn [filter]. destruct (String.eqb b64 n) eqn:E; cbn [negb]; [exact IH|].
  cbn [existsb]. now rewrite E, IH.
Qed.

Lemma consume_empty (b64 : string) :
  fst (nonceCache.consume b64 []) = false.
Proof. reflexivity. Qed.

(** ** Claims on the attesters *)

(** C1.  A document whose embedded nonce the predicate [isOurNonce] does
    not accept is rejected by [verifyAttstn]: the result is an error and
    no [auxInfo] value.  For the dummy attester the embedded nonce is the
    leader's nonce of a document that passes the worker's check and the
    worker's nonce of one that passes the leader's check only; for the
    production attester it is the nonce field of the verified document.
    In particular, with a predicate that consumes the nonces of a cache, a
    nonce that was never issued (an empty cache) is rejected, and so is
    the document of a successful verification when it is presented a
    second time. *)
Theorem verifyAttstn_rejects_nonce_not_ours :
  (forall (nonceLen : nat) (St : Type) (doc : list byte)
          (isOurNonce : predicate St) (st : St),
      (forall w,
          Worker.Unmarshal doc = Ok w ->
          dummyAttester.isWorker nonceLen w = true ->
          fst (isOurNonce (B64 (Worker.LeadersNonce w)) st) = false) ->
      (forall w l,
          Worker.Unmarshal doc = Ok w ->
          dummyAttester.isWorker nonceLen w = false ->
          Leader.Unmarshal doc = Ok l ->
          dummyAttester.isLeader nonceLen l = true ->
          fst (isOurNonce (B64 (Leader.WorkersNonce l)) st) = false) ->
      exists e,
        fst (dummyAttester.verifyAttstn nonceLen doc isOurNonce st) = Err e)
  /\ (forall (St Time : Type) (currentTime : Time) Verify getPCRValues
             arePCRsIdentical (doc : list byte)
             (isOurNonce : predicate St) (st : St),
         (forall their,
             Verify doc currentTime = Ok their ->
             fst (isOurNonce
                    (base64.EncodeToString (contents (nitrite.Nonce their)))
                    st) = false) ->
         exists e,
           fst (nitroAttester.verifyAttstn Time currentTime Verify
                  getPCRValues arePCRsIdentical doc isOurNonce st) = Err e)
  /\ (forall (nonceLen : nat) (doc : list byte),
         exists e,
           fst (dummyAttester.verifyAttstn nonceLen doc
                  nonceCache.consume []) = Err e)
  /\ (forall (Time : Type) (currentTime : Time) Verify getPCRValues
             arePCRsIdentical (doc : list byte),
         exists e,
           fst (nitroAttester.verifyAttstn Time currentTime Verify
                  getPCRValues arePCRsIdentical doc
                  nonceCache.consume []) = Err e)
  /\ (forall (nonceLen : nat) (doc : list byte) (c c' : nonceCache.cache)
             (aux : auxInfo),
         dummyAttester.verifyAttstn nonceLen doc nonceCache.consume c
         = (Ok aux, c') ->
         exists e,
           fst (dummyAttester.verifyAttstn nonceLen doc
                  nonceCache.consume c') = Err e)
  /\ (forall (Time : Type) (currentTime : Time) Verify getPCRValues
             arePCRsIdentical (doc : list byte) (c c' : nonceCache.cache)
             (aux : auxInfo),
         nitroAttester.verifyAttstn Time currentTime Verify getPCRValues
           arePCRsIdentical doc nonceCache.consume c = (Ok aux, c') ->
         exists e,
           fst (nitroAttester.verifyAttstn Time currentTime Verify
                  getPCRValues arePCRsIdentical doc
                  nonceCache.consume c') = Err e).
Proof.
  assert (Hdummy :
    forall (nonceLen : nat) (St : Type) (doc : list byte)
           (isOurNonce : predicate St) (st : St),
      (forall w,
          Worker.Unmarshal doc = Ok w ->
          dummyAttester.isWorker nonceLen w = true ->
          fst (isOurNonce (B64 (Worker.LeadersNonce w)) st) = false) ->
      (forall w l,
          Worker.Unmarshal doc = Ok w ->
          dummyAttester.isWorker nonceLen w = false ->
          Leader.Unmarshal doc = Ok l ->
          dummyAttester.isLeader nonceLen l = true ->
          fst (isOurNonce (B64 (Leader.WorkersNonce l)) st) = false) ->
      exists e,
        fst (dummyAttester.verifyAttstn nonceLen doc isOurNonce st) = Err e).
  { intros nonceLen St doc p st Hw Hl.
    destruct (dummyAttester.verifyAttstn nonceLen doc p st)
      as [[aux|e] st'] eqn:Hv; [|cbn; eauto].
    apply dummy_verifyAttstn_Ok in Hv.
    destruct Hv as [(w & Hd & Hc & Hp & _)
                   |(w & l & Hd & Hc & Hd' & Hc' & Hp & _)].
    - specialize (Hw w Hd Hc). rewrite Hp in Hw. discriminate.
    - specialize (Hl w l Hd Hc Hd' Hc'). rewrite Hp in Hl. discriminate. }
  assert (Hnitro :
    forall (St Time : Type) (currentTime : Time) Verify getPCRValues
           arePCRsIdentical (doc : list byte)
           (isOurNonce : predicate St) (st : St),
      (forall their,
          Verify doc currentTime = Ok their ->
          fst (isOurNonce
                 (base64.EncodeToString (contents (nitrite.Nonce their)))
                 st) = false) ->
      exists e,
        fst (nitroAttester.verifyAttstn Time currentTime Verify
               getPCRValues arePCRsIdentical doc isOurNonce st) = Err e).
  { intros St Time currentTime Verify getPCRValues arePCRsIdentical doc p st
           Hn.
    destruct (nitroAttester.verifyAttstn Time currentTime Verify
                getPCRValues arePCRsIdentical doc p st)
      as [[aux|e] st'] eqn:Hv; [|cbn; eauto].
    apply nitro_verifyAttstn_Ok in Hv.
    destruct Hv as (their & ourPCRs & Hd & _ & _ & Hp & _).
    specialize (Hn their Hd). rewrite Hp in Hn. discriminate. }
  repeat split.
  - exact Hdummy.
  - exact Hnitro.
  - intros nonceLen doc. apply Hdummy; intros; apply consume_empty.
  - intros Time currentTime Verify getPCRValues arePCRsIdentical doc.
    apply Hnitro; intros; apply consume_empty.
  - intros nonceLen doc c c' aux Hv.
    apply dummy_verifyAttstn_Ok in Hv.
    destruct Hv as [(w & Hd & Hc & Hp & _)
                   |(w & l & Hd & Hc & Hd' & Hc' & Hp & _)].
    + apply Hdummy.
      * intros w' Hd2 _. rewrite Hd in Hd2. injection Hd2 as <-.
        replace c' with (snd (nonceCache.consume
                                (B64 (Worker.LeadersNonce w)) c))
          by now rewrite Hp.
        apply consume_twice.
      * intros w' l' Hd2 Hc2. rewrite Hd in Hd2. injection Hd2 as <-.
        congruence.
    + apply Hdummy.
      * intros w' Hd2 Hc2. rewrite Hd in Hd2. injection Hd2 as <-.
        congruence.
      * intros w' l' _ _ Hd2 _. rewrite Hd' in Hd2. injection Hd2 as <-.
        replace c' with (snd (nonceCache.consume
                                (B64 (Leader.WorkersNonce l)) c))
          by now rewrite Hp.
        apply consume_twice.
  - intros Time currentTime Verify getPCRValues arePCRsIdentical doc c c'
           aux Hv.
    apply nitro_verifyAttstn_Ok in Hv.
    destruct Hv as (their & ourPCRs & Hd & _ & _ & Hp & _).
    apply Hnitro. intros their' Hd2. rewrite Hd in Hd2.
    injection Hd2 as <-.
    replace c' with
      (snd (nonceCache.consume
              (base64.EncodeToString (contents (nitrite.Nonce their))) c))
      by now rewrite Hp.
    apply consume_twice.
Qed.

(** A worker's document and a predicate that knows no nonce; a verified
    document and the same predicate; and the same documents presented a
    second time after the cache has consumed their nonce. *)
Lemma verifyAttstn_rejects_nonce_not_ours_witness :
  let their :=
    {| nitrite.PCRs := [];
       nitrite.Nonce := Some [x01; x02; x03; x04];
       nitrite.UserData := Some [x0a; x0b];
       nitrite.PublicKey := None |} in
  let nitro (St : Type) :=
    nitroAttester.verifyAttstn (St:=St) unit tt (fun _ _ => Ok their)
      (Ok []) (fun _ _ => true) [] in
  let dummy (St : Type) :=
    dummyAttester.verifyAttstn (St:=St) 4 (Worker.Marshal sampleWorker) in
  (exists e, fst (dummy unit (fun _ st => (false, st)) tt) = Err e)
  /\ (exists e, fst (nitro unit (fun _ st => (false, st)) tt) = Err e)
  /\ (dummy _ nonceCache.consume [B64 (Worker.LeadersNonce sampleWorker)]
      = (Ok (workerPtr sampleWorker), [])
      /\ exists e, fst (dummy _ nonceCache.consume []) = Err e)
  /\ (nitro _ nonceCache.consume [B64 (nitrite.Nonce their)]
      = (Ok (leaderPtr {| Leader.WorkersNonce := nitrite.Nonce their;
                          Leader.EnclaveKeys := nitrite.UserData their |}),
         [])
      /\ exists e, fst (nitro _ nonceCache.consume []) = Err e).
Proof.
  intros their nitro dummy.
  destruct verifyAttstn_rejects_nonce_not_ours
    as (Hdummy & Hnitro & _ & _ & Hdummy2 & Hnitro2).
  split; [|split; [|split]].
  - apply Hdummy; intros; reflexivity.
  - apply Hnitro; intros; reflexivity.
  - split; [reflexivity|].
    apply (Hdummy2 4 (Worker.Marshal sampleWorker)
             [B64 (Worker.LeadersNonce sampleWorker)] []
             (workerPtr sampleWorker)).
    reflexivity.
  - split; [reflexivity|].
    apply (Hnitro2 unit tt (fun _ _ => Ok their) (Ok []) (fun _ _ => true)
             [] [B64 (nitrite.Nonce their)] []
             (leaderPtr {| Leader.WorkersNonce := nitrite.Nonce their;
                           Leader.EnclaveKeys := nitrite.UserData their |})).
    reflexivity.
Defined.

(** C2.  The production attester applies [isOurNonce] to the nonce field
    of the document, which is the worker's nonce of the worker's payload
    it returns, and not to the leader's nonce, as the claim has it and as
    the dummy attester does.  With a verified worker's document of worker
    nonce 01 02 and leader nonce 03 04: a cache that holds the leader's
    nonce rejects it, a cache that holds the worker's nonce accepts it,
    and the dummy attester decides the other way round on the same
    payload. *)
Theorem nitro_verifyAttstn_examines_workers_nonce :
  let their :=
    {| nitrite.PCRs := [];
       nitrite.Nonce := Some [x01; x02];
       nitrite.UserData := Some [x03; x04];
       nitrite.PublicKey := Some [x05] |} in
  let payload :=
    {| Worker.WorkersNonce := Some [x01; x02];
       Worker.LeadersNonce := Some [x03; x04];
       Worker.PublicKey := Some [x05] |} in
  let nitro :=
    nitroAttester.verifyAttstn unit tt (fun _ _ => Ok their) (Ok [])
      (fun _ _ => true) [] in
  let dummy := dummyAttester.verifyAttstn 2 (Worker.Marshal payload) in
  fst (nitro nonceCache.consume [B64 (Worker.LeadersNonce payload)])
  = Err (fmtErrorf
      "error verifying attestation document: nonce AQI= not in cache")
  /\ fst (nitro nonceCache.consume [B64 (Worker.WorkersNonce payload)])
     = Ok (workerPtr payload)
  /\ fst (dummy nonceCache.consume [B64 (Worker.LeadersNonce payload)])
     = Ok (workerPtr payload)
  /\ fst (dummy nonceCache.consume [B64 (Worker.WorkersNonce payload)])
     = Err (errorsNew "leader nonce not in cache").
Proof. vm_compute. repeat split; reflexivity. Qed.

(** C3.  A well-formed worker's or leader's value that the dummy attester
    turns into a document is recovered from it: [createAttstn] succeeds,
    and [verifyAttstn] with a predicate that accepts the issued nonce
    returns the payload with the fields of the original.  The original is
    the struct, passed by value or by pointer; what is returned is a
    pointer to a struct equal to it. *)
Theorem dummy_createAttstn_verifyAttstn :
  forall (nonceLen : nat) (St : Type) (isOurNonce : predicate St) (st : St),
    (forall (w : workerAuxInfo) (original : auxInfo),
        original = workerValue w \/ original = workerPtr w ->
        len (Worker.WorkersNonce w) = nonceLen ->
        len (Worker.LeadersNonce w) = nonceLen ->
        Worker.PublicKey w <> None ->
        fst (isOurNonce (B64 (Worker.LeadersNonce w)) st) = true ->
        exists doc,
          dummyAttester.createAttstn original = Ok doc
          /\ fst (dummyAttester.verifyAttstn nonceLen doc isOurNonce st)
             = Ok (workerPtr w))
    /\ (forall (l : leaderAuxInfo) (original : auxInfo),
           original = leaderValue l \/ original = leaderPtr l ->
           len (Leader.WorkersNonce l) = nonceLen ->
           Leader.EnclaveKeys l <> None ->
           fst (isOurNonce (B64 (Leader.WorkersNonce l)) st) = true ->
           exists doc,
             dummyAttester.createAttstn original = Ok doc
             /\ fst (dummyAttester.verifyAttstn nonceLen doc isOurNonce st)
                = Ok (leaderPtr l)).
Proof.
  intros nonceLen St p st. split.
  - intros w original Ho H1 H2 H3 Hp. exists (Worker.Marshal w).
    split; [destruct Ho; subst; reflexivity|].
    rewrite (dummy_verifyAttstn_worker nonceLen p _ st w).
    + destruct (p _ st) as [ours st']. cbn in Hp. now subst.
    + apply Worker_Unmarshal_Marshal.
    + unfold dummyAttester.isWorker. rewrite H1, H2, !Nat.eqb_refl.
      destruct (Worker.PublicKey w); [reflexivity | congruence].
  - intros l original Ho H1 H2 Hp. exists (Leader.Marshal l).
    split; [destruct Ho; subst; reflexivity|].
    rewrite (dummy_verifyAttstn_leader nonceLen p _ st _ l
               (Worker_Unmarshal_Leader_Marshal l)).
    + destruct (p _ st) as [ours st']. cbn in Hp. now subst.
    + unfold dummyAttester.isWorker. cbn. now rewrite andb_false_r.
    + apply Leader_Unmarshal_Marshal.
    + unfold dummyAttester.isLeader. rewrite H1, Nat.eqb_refl.
      destruct (Leader.EnclaveKeys l); [reflexivity | congruence].
Qed.

(** A worker's and a leader's value with nonces of four bytes, and a cache
    that holds the nonce that was issued. *)
Lemma dummy_createAttstn_verifyAttstn_witness :
  (exists doc,
      dummyAttester.createAttstn (workerValue sampleWorker) = Ok doc
      /\ fst (dummyAttester.verifyAttstn 4 doc nonceCache.consume
                [B64 (Worker.LeadersNonce sampleWorker)])
         = Ok (workerPtr sampleWorker))
  /\ (exists doc,
         dummyAttester.createAttstn (leaderValue sampleLeader) = Ok doc
         /\ fst (dummyAttester.verifyAttstn 4 doc nonceCache.consume
                   [B64 (Leader.WorkersNonce sampleLeader)])
            = Ok (leaderPtr sampleLeader)).
Proof.
  split.
  - apply (proj1 (dummy_createAttstn_verifyAttstn 4 nonceCache.cache
                    nonceCache.consume
                    [B64 (Worker.LeadersNonce sampleWorker)])).
    + left. reflexivity.
    + reflexivity.
    + reflexivity.
    + discriminate.
    + reflexivity.
  - apply (proj2 (dummy_createAttstn_verifyAttstn 4 nonceCache.cache
                    nonceCache.consume
                    [B64 (Leader.WorkersNonce sampleLeader)])).
    + left. reflexivity.
    + reflexivity.
    + discriminate.
    + reflexivity.
Defined.

(** C4, as the claim states it, fails for the production attester: a
    verified document without public key and without user data is
    classified as a leader's payload, and the [EnclaveKeys] of that
    payload is nil. *)
Lemma nitro_verifyAttstn_leader_without_keys :
  nitroAttester.verifyAttstn unit tt
    (fun _ _ => Ok {| nitrite.PCRs := [];
                      nitrite.Nonce := Some [x01];
                      nitrite.UserData := None;
                      nitrite.PublicKey := None |})
    (Ok []) (fun _ _ => true) [] (fun _ (st : unit) => (true, st)) tt
  = (Ok (leaderPtr {| Leader.WorkersNonce := Some [x01];
                      Leader.EnclaveKeys := None |}), tt).
Proof. reflexivity. Qed.

(** C4, amended.  The dummy attester classifies a document by decoding it
    as a worker's payload first and as a leader's payload second, and
    accepts a shape only when its fields are well-formed: the nonces have
    [nonceLen] bytes, and the public key, respectively the key bundle, is
    not nil.  The production attester classifies a verified document by
    its public-key field alone: a worker's payload when the field is not
    nil, a leader's payload otherwise, with the nonce and the user data as
    they are. *)
Theorem verifyAttstn_classification :
  (forall (nonceLen : nat) (St : Type) (doc : list byte)
          (isOurNonce : predicate St) (st st' : St) (aux : auxInfo),
      dummyAttester.verifyAttstn nonceLen doc isOurNonce st = (Ok aux, st') ->
      (exists w,
          aux = workerPtr w
          /\ Worker.Unmarshal doc = Ok w
          /\ len (Worker.WorkersNonce w) = nonceLen
          /\ len (Worker.LeadersNonce w) = nonceLen
          /\ Worker.PublicKey w <> None)
      \/ (exists w l,
             aux = leaderPtr l
             /\ Worker.Unmarshal doc = Ok w
             /\ dummyAttester.isWorker nonceLen w = false
             /\ Leader.Unmarshal doc = Ok l
             /\ len (Leader.WorkersNonce l) = nonceLen
             /\ Leader.EnclaveKeys l <> None))
  /\ (forall (St Time : Type) (currentTime : Time) Verify getPCRValues
             arePCRsIdentical (doc : list byte)
             (isOurNonce : predicate St) (st st' : St) (aux : auxInfo),
         nitroAttester.verifyAttstn Time currentTime Verify getPCRValues
           arePCRsIdentical doc isOurNonce st = (Ok aux, st') ->
         exists their,
           Verify doc currentTime = Ok their
           /\ ((nitrite.PublicKey their <> None
                /\ aux = workerPtr
                     {| Worker.WorkersNonce := nitrite.Nonce their;
                        Worker.LeadersNonce := nitrite.UserData their;
                        Worker.PublicKey := nitrite.PublicKey their |})
               \/ (nitrite.PublicKey their = None
                   /\ aux = leaderPtr
                        {| Leader.WorkersNonce := nitrite.Nonce their;
                           Leader.EnclaveKeys := nitrite.UserData their |}))).
Proof.
  split.
  - intros nonceLen St doc p st st' aux Hv.
    apply dummy_verifyAttstn_Ok in Hv.
    destruct Hv as [(w & Hd & Hc & _ & ->)
                   |(w & l & Hd & Hc & Hd' & Hc' & _ & ->)].
    + left. exists w. unfold dummyAttester.isWorker in Hc.
      apply andb_prop in Hc. destruct Hc as [Hc H3].
      apply andb_prop in Hc. destruct Hc as [H1 H2].
      apply Nat.eqb_eq in H1, H2.
      repeat split; auto.
      destruct (Worker.PublicKey w); [discriminate | discriminate].
    + right. exists w, l. unfold dummyAttester.isLeader in Hc'.
      apply andb_prop in Hc'. destruct Hc' as [H1 H2].
      apply Nat.eqb_eq in H1.
      repeat split; auto.
      destruct (Leader.EnclaveKeys l); [discriminate | discriminate].
  - intros St Time currentTime Verify getPCRValues arePCRsIdentical doc p
           st st' aux Hv.
    apply nitro_verifyAttstn_Ok in Hv.
    destruct Hv as (their & ourPCRs & Hd & _ & _ & _ & ->).
    exists their. split; [exact Hd|].
    destruct (nitrite.PublicKey their) as [pk|]; cbn [isNil negb].
    + left. split; [discriminate | reflexivity].
    + right. split; reflexivity.
Qed.

(** A leader's document of the dummy attester, and a verified document
    with a public key. *)
Lemma verifyAttstn_classification_witness :
  ((exists w,
       leaderPtr sampleLeader = workerPtr w
       /\ Worker.Unmarshal (Leader.Marshal sampleLeader) = Ok w
       /\ len (Worker.WorkersNonce w) = 4
       /\ len (Worker.LeadersNonce w) = 4
       /\ Worker.PublicKey w <> None)
   \/ (exists w l,
          leaderPtr sampleLeader = leaderPtr l
          /\ Worker.Unmarshal (Leader.Marshal sampleLeader) = Ok w
          /\ dummyAttester.isWorker 4 w = false
          /\ Leader.Unmarshal (Leader.Marshal sampleLeader) = Ok l
          /\ len (Leader.WorkersNonce l) = 4
          /\ Leader.EnclaveKeys l <> None))
  /\ (exists their,
         Ok {| nitrite.PCRs := [];
               nitrite.Nonce := Some [x01];
               nitrite.UserData := Some [x02];
               nitrite.PublicKey := Some [x03] |} = Ok their
         /\ ((nitrite.PublicKey their <> None
              /\ workerPtr {| Worker.WorkersNonce := Some [x01];
                              Worker.LeadersNonce := Some [x02];
                              Worker.PublicKey := Some [x03] |}
                 = workerPtr
                     {| Worker.WorkersNonce := nitrite.Nonce their;
                        Worker.LeadersNonce := nitrite.UserData their;
                        Worker.PublicKey := nitrite.PublicKey their |})
             \/ (nitrite.PublicKey their = None
                 /\ workerPtr {| Worker.WorkersNonce := Some [x01];
                                 Worker.LeadersNonce := Some [x02];
                                 Worker.PublicKey := Some [x03] |}
                    = leaderPtr
                        {| Leader.WorkersNonce := nitrite.Nonce their;
                           Leader.EnclaveKeys := nitrite.UserData their |}))).
Proof.
  split.
  - apply (proj1 verifyAttstn_classification 4 unit
             (Leader.Marshal sampleLeader) (fun _ st => (true, st)) tt tt).
    reflexivity.
  - apply (proj2 verifyAttstn_classification unit unit tt
             (fun _ _ => Ok {| nitrite.PCRs := [];
                               nitrite.Nonce := Some [x01];
                               nitrite.UserData := Some [x02];
                               nitrite.PublicKey := Some [x03] |})
             (Ok []) (fun _ _ => true) [] (fun _ st => (true, st)) tt tt).
    reflexivity.
Defined.

Lemma bothShapes_worker (n : nat) :
  Worker.Unmarshal (bothShapes n)
  = Ok {| Worker.WorkersNonce := Some (repeat x00 n);
          Worker.LeadersNonce := Some (repeat x00 n);
          Worker.PublicKey := Some [] |}.
Proof.
  unfold Worker.Unmarshal, bothShapes, json.Unmarshal.
  rewrite parse_MarshalStruct by reflexivity.
  cbn [map]. unfold memberOf. cbn [fst snd].
  do 3 (erewrite object_field by reflexivity).
  rewrite object_skip by reflexivity.
  reflexivity.
Qed.

Lemma bothShapes_leader (n : nat) :
  Leader.Unmarshal (bothShapes n)
  = Ok {| Leader.WorkersNonce := Some (repeat x00 n);
          Leader.EnclaveKeys := Some [] |}.
Proof.
  unfold Leader.Unmarshal, bothShapes, json.Unmarshal.
  rewrite parse_MarshalStruct by reflexivity.
  cbn [map]. unfold memberOf. cbn [fst snd].
  erewrite object_field by reflexivity.
  do 2 (rewrite object_skip by reflexivity).
  erewrite object_field by reflexivity.
  reflexivity.
Qed.

Lemma bothShapes_pass (n : nat) :
  exists w l,
    Worker.Unmarshal (bothShapes n) = Ok w
    /\ Leader.Unmarshal (bothShapes n) = Ok l
    /\ dummyAttester.isWorker n w = true
    /\ dummyAttester.isLeader n l = true.
Proof.
  eexists. eexists.
  split; [apply bothShapes_worker|].
  split; [apply bothShapes_leader|].
  unfold dummyAttester.isWorker, dummyAttester.isLeader, len.
  cbn [Worker.WorkersNonce Worker.LeadersNonce Worker.PublicKey
       Leader.WorkersNonce Leader.EnclaveKeys contents isNil negb].
  rewrite repeat_length, Nat.eqb_refl. split; reflexivity.
Qed.

(** C5, as the claim states it, fails whatever the value of [nonceLen]:
    the object with the members workers_nonce, leaders_nonce, public_key
    and enclave_keys, the nonces of [nonceLen] bytes, passes the check of
    the worker's shape and the check of the leader's shape. *)
Lemma dummy_payload_of_both_shapes :
  ~ (exists nonceLen : nat,
        forall (doc : list byte) (w : workerAuxInfo) (l : leaderAuxInfo),
          Worker.Unmarshal doc = Ok w ->
          Leader.Unmarshal doc = Ok l ->
          dummyAttester.isWorker nonceLen w
          && dummyAttester.isLeader nonceLen l = false).
Proof.
  intros [n H].
  destruct (bothShapes_pass n) as (w & l & Hw & Hl & Hcw & Hcl).
  specialize (H _ _ _ Hw Hl). rewrite Hcw, Hcl in H. discriminate.
Qed.

(** C5, amended.  A payload can pass both structural checks, whatever
    [nonceLen] is; [verifyAttstn] then classifies it as a worker's
    payload, as it comes to the leader's shape only when the check of the
    worker's shape fails, so that one payload is never accepted in both
    shapes.  The payloads that [createAttstn] makes of a worker's and of
    a leader's value pass at most one of the checks: a worker's document
    decodes to a leader without key bundle, a leader's document to a
    worker without public key. *)
Theorem dummy_classification_prefers_worker :
  (forall nonceLen : nat,
      exists doc w l,
        Worker.Unmarshal doc = Ok w
        /\ Leader.Unmarshal doc = Ok l
        /\ dummyAttester.isWorker nonceLen w = true
        /\ dummyAttester.isLeader nonceLen l = true)
  /\ (forall (nonceLen : nat) (St : Type) (doc : list byte)
             (isOurNonce : predicate St) (st : St) (w : workerAuxInfo)
             (aux : auxInfo),
         Worker.Unmarshal doc = Ok w ->
         dummyAttester.isWorker nonceLen w = true ->
         fst (dummyAttester.verifyAttstn nonceLen doc isOurNonce st)
         = Ok aux ->
         aux = workerPtr w)
  /\ (forall (nonceLen : nat) (w : workerAuxInfo),
         exists doc l,
           dummyAttester.createAttstn (workerValue w) = Ok doc
           /\ Leader.Unmarshal doc = Ok l
           /\ dummyAttester.isLeader nonceLen l = false)
  /\ (forall (nonceLen : nat) (l : leaderAuxInfo),
         exists doc w,
           dummyAttester.createAttstn (leaderValue l) = Ok doc
           /\ Worker.Unmarshal doc = Ok w
           /\ dummyAttester.isWorker nonceLen w = false).
Proof.
  repeat split.
  - intros n. exists (bothShapes n). apply bothShapes_pass.
  - intros nonceLen St doc p st w aux Hd Hc.
    rewrite (dummy_verifyAttstn_worker nonceLen p doc st w Hd Hc).
    destruct (p _ st) as [[|] st']; cbn; congruence.
  - intros nonceLen w. eexists. eexists.
    split; [reflexivity|]. split; [apply Leader_Unmarshal_Worker_Marshal|].
    unfold dummyAttester.isLeader. cbn. apply andb_false_r.
  - intros nonceLen l. eexists. eexists.
    split; [reflexivity|]. split; [apply Worker_Unmarshal_Leader_Marshal|].
    unfold dummyAttester.isWorker. cbn. apply andb_false_r.
Qed.

(** The payload of both shapes with nonces of four bytes is verified as a
    worker's. *)
Lemma dummy_classification_prefers_worker_witness :
  exists aux,
    fst (dummyAttester.verifyAttstn 4 (bothShapes 4)
           (fun _ (st : unit) => (true, st)) tt) = Ok aux
    /\ aux = workerPtr {| Worker.WorkersNonce := Some [x00; x00; x00; x00];
                          Worker.LeadersNonce := Some [x00; x00; x00; x00];
                          Worker.PublicKey := Some [] |}.
Proof.
  eexists. split; [reflexivity|].
  apply (proj1 (proj2 dummy_classification_prefers_worker) 4 unit
           (bothShapes 4) (fun _ st => (true, st)) tt).
  - reflexivity.
  - reflexivity.
  - reflexivity.
Defined.

(** ** Claims on the key store *)

Lemma bytes_eqb_eq (a b : list byte) : bytes.eqb a b = true <-> a = b.
Proof.
  revert b. induction a as [|x a IH]; intros [|y b]; cbn;
    try (split; [discriminate | congruence]); try tauto.
  rewrite andb_true_iff, IH. split.
  - intros [Hxy ->]. apply Byte.byte_dec_bl in Hxy. now subst.
  - intros H. injection H as -> ->. split; [|reflexivity].
    now apply Byte.byte_dec_lb.
Qed.

Lemma bytes_Equal_refl (a : slice) : bytes.Equal a a = true.
Proof. unfold bytes.Equal. now apply bytes_eqb_eq. Qed.

Lemma bytes_Equal_sym (a b : slice) : bytes.Equal a b = bytes.Equal b a.
Proof.
  unfold bytes.Equal.
  destruct (bytes.eqb (contents a) (contents b)) eqn:E.
  - apply bytes_eqb_eq in E. rewrite E. symmetry. now apply bytes_eqb_eq.
  - destruct (bytes.eqb (contents b) (contents a)) eqn:E'; [|reflexivity].
    apply bytes_eqb_eq in E'. rewrite E' in E.
    rewrite (proj2 (bytes_eqb_eq _ _) eq_refl) in E. discriminate.
Qed.

Lemma bytes_Equal_differ (a b : slice) :
  contents a <> contents b -> bytes.Equal a b = false.
Proof.
  intros H. unfold bytes.Equal.
  destruct (bytes.eqb (contents a) (contents b)) eqn:E; [|reflexivity].
  apply bytes_eqb_eq in E. contradiction.
Qed.

(** C6.  After [e.set(k)], [e.get()] returns a bundle whose three fields
    are those of [k], byte for byte: [set] replaces the three fields, and
    nothing of the bundle that was stored before remains. *)
Theorem enclaveKeys_set_get :
  forall e k : enclaveKeys.enclaveKeys,
    let got := enclaveKeys.get (enclaveKeys.set e k) in
    enclaveKeys.NitridingKey got = enclaveKeys.NitridingKey k
    /\ enclaveKeys.NitridingCert got = enclaveKeys.NitridingCert k
    /\ enclaveKeys.AppKeys got = enclaveKeys.AppKeys k
    /\ bytes.Equal (enclaveKeys.NitridingKey got) (enclaveKeys.NitridingKey k)
       = true
    /\ bytes.Equal (enclaveKeys.NitridingCert got)
                   (enclaveKeys.NitridingCert k) = true
    /\ bytes.Equal (enclaveKeys.AppKeys got) (enclaveKeys.AppKeys k) = true
    /\ got = k
    /\ forall e' : enclaveKeys.enclaveKeys,
         enclaveKeys.set e' k = enclaveKeys.set e k.
Proof.
  intros e k got. subst got. destruct k as [key cert app].
  cbn. rewrite !bytes_Equal_refl. repeat split; reflexivity.
Qed.

(** C7.  [equal] is reflexive and symmetric, and it is false as soon as
    the bytes of one of the three fields differ. *)
Theorem enclaveKeys_equal :
  forall a b : enclaveKeys.enclaveKeys,
    enclaveKeys.equal a a = true
    /\ enclaveKeys.equal a b = enclaveKeys.equal b a
    /\ (contents (enclaveKeys.NitridingKey a)
        <> contents (enclaveKeys.NitridingKey b)
        \/ contents (enclaveKeys.NitridingCert a)
           <> contents (enclaveKeys.NitridingCert b)
        \/ contents (enclaveKeys.AppKeys a)
           <> contents (enclaveKeys.AppKeys b) ->
        enclaveKeys.equal a b = false).
Proof.
  intros a b. unfold enclaveKeys.equal. repeat split.
  - now rewrite !bytes_Equal_refl.
  - now rewrite (bytes_Equal_sym (enclaveKeys.NitridingCert a)),
      (bytes_Equal_sym (enclaveKeys.NitridingKey a)),
      (bytes_Equal_sym (enclaveKeys.AppKeys a)).
  - intros [H|[H|H]]; apply bytes_Equal_differ in H; rewrite H.
    + now rewrite andb_false_r.
    + reflexivity.
    + now rewrite andb_false_r.
Qed.

(** Two bundles that differ in one byte of the application's keys. *)
Lemma enclaveKeys_equal_witness :
  enclaveKeys.equal
    {| enclaveKeys.NitridingKey := Some [x01];
       enclaveKeys.NitridingCert := Some [x02];
       enclaveKeys.AppKeys := Some [x03] |}
    {| enclaveKeys.NitridingKey := Some [x01];
       enclaveKeys.NitridingCert := Some [x02];
       enclaveKeys.AppKeys := Some [x04] |} = false.
Proof.
  apply (proj2 (proj2 (enclaveKeys_equal _ _))).
  right. right. cbn. discriminate.
Defined.

(** ** Claims on the handlers *)

Lemma status_Error (w : http.ResponseWriter) (msg : string) (code : nat) :
  http.wroteHeader w = None -> http.status (http.Error w msg code) = code.
Proof.
  intros H. unfold http.Error, http.Fprintln, http.WriteHeader, http.status.
  rewrite H. reflexivity.
Qed.

Lemma copy_same_length (dst src : list byte) :
  List.length dst = List.length src -> copy dst src = src.
Proof.
  intros H. unfold copy. rewrite H, Nat.min_id.
  rewrite firstn_all. rewrite <- H, skipn_all. apply app_nil_r.
Qed.

(** C8, as the claim states it, fails when reading the body fails: the
    handler answers [StatusInternalServerError], which is no client
    error, also when the bytes it read are no Base64. *)
Lemma hashHandler_read_failure :
  let res :=
    handlers.hashHandler (list byte)
      (fun body _ => (body, Some (errorsNew "unexpected EOF")))
      (errorsNew "reached read limit") (errorsNew "no Base64 given")
      {| appKeyHash := repeat x00 32 |} http.fresh (bytesOf "!!") in
  base64.DecodeString (strings.TrimSpace "!!") = None
  /\ http.status (fst res) = 500
  /\ http.isClientError (http.status (fst res)) = false.
Proof. vm_compute. repeat split; reflexivity. Qed.

(** C8, amended.  When the body is read without an I/O failure (the read
    limit may be hit) and the bytes read, with the white space around
    them removed, are no valid Base64 or do not decode to exactly
    [sha256.Size] bytes, or the read limit is hit, the handler answers
    [StatusBadRequest] and leaves [appKeyHash] as it is.  Whatever the
    outcome of the reading, [appKeyHash] stays as it is for such bytes,
    and it changes only by the copy of a decoded hash of exactly
    [sha256.Size] bytes; a body that is read to its end and decodes to
    such a hash is copied, and nothing is written to the response. *)
Theorem hashHandler_rejects_malformed_hash :
  forall (Body : Type) (readAll : Body -> nat -> list byte * option error)
         (errTooMuchToRead errNoBase64 : error) (hashes : AttestationHashes)
         (w : http.ResponseWriter) (body : Body),
    let read := fst (readAll body 45) in
    let err := snd (readAll body 45) in
    let decoded :=
      base64.DecodeString (strings.TrimSpace (stringOf read)) in
    let res :=
      handlers.hashHandler Body readAll errTooMuchToRead errNoBase64
                           hashes w body in
    http.wroteHeader w = None ->
    ((err = None \/ errors_Is err errTooMuchToRead = true) ->
     (errors_Is err errTooMuchToRead = true
      \/ decoded = None
      \/ exists k, decoded = Some k /\ List.length k <> sha256_Size) ->
     http.status (fst res) = http.StatusBadRequest
     /\ http.isClientError (http.status (fst res)) = true
     /\ snd res = hashes)
    /\ ((decoded = None
         \/ exists k, decoded = Some k /\ List.length k <> sha256_Size) ->
        snd res = hashes)
    /\ (snd res <> hashes ->
        exists k,
          decoded = Some k
          /\ List.length k = sha256_Size
          /\ snd res = {| appKeyHash := copy (appKeyHash hashes) k |}
          /\ (List.length (appKeyHash hashes) = sha256_Size ->
              appKeyHash (snd res) = k))
    /\ (err = None ->
        forall k,
          decoded = Some k ->
          List.length k = sha256_Size ->
          res = (w, {| appKeyHash := copy (appKeyHash hashes) k |})).
Proof.
  intros Body readAll errTooMuch errNoBase64 hashes w body
         read err decoded res Hw.
  subst res. unfold handlers.hashHandler.
  change (base64.EncodedLen sha256_Size + 1) with 45.
  subst read err decoded.
  destruct (readAll body 45) as [read err]. cbn [fst snd].
  destruct (errors_Is err errTooMuch) eqn:Htoo.
  - cbn [fst snd]. rewrite status_Error by exact Hw.
    split; [|split; [|split]]; try (repeat split; reflexivity).
    + intros H. contradiction.
    + intros ->. discriminate.
  - destruct (base64.DecodeString (strings.TrimSpace (stringOf read)))
      as [keyHash|] eqn:Hdec.
    + destruct (List.length keyHash =? sha256_Size)%nat eqn:Hlen;
        cbn [negb fst snd].
      * apply Nat.eqb_eq in Hlen. split; [|split; [|split]].
        -- intros _ [H|[H|(k & Hk & Hne)]]; try discriminate.
           injection Hk as <-. contradiction.
        -- intros [H|(k & Hk & Hne)]; try discriminate.
           injection Hk as <-. contradiction.
        -- intros _. exists keyHash. repeat split; auto.
           intros Hh. cbn [appKeyHash]. apply copy_same_length. congruence.
        -- intros -> k Hk _. injection Hk as <-. reflexivity.
      * apply Nat.eqb_neq in Hlen. split; [|split; [|split]].
        -- intros [->|H] _; [|discriminate].
           rewrite status_Error by exact Hw. repeat split; reflexivity.
        -- reflexivity.
        -- intros H. contradiction.
        -- intros _ k Hk Hl. injection Hk as <-. contradiction.
    + cbn [fst snd]. split; [|split; [|split]].
      * intros [->|H] _; [|discriminate].
        rewrite status_Error by exact Hw. repeat split; reflexivity.
      * reflexivity.
      * intros H. contradiction.
      * intros _ k Hk. discriminate.
Qed.

(** A body that is read to its end and decodes to three bytes, and one
    that decodes to thirty-two bytes. *)
Lemma hashHandler_rejects_malformed_hash_witness :
  let handler :=
    handlers.hashHandler (list byte) (fun body _ => (body, None))
      (errorsNew "reached read limit") (errorsNew "no Base64 given")
      {| appKeyHash := repeat x00 32 |} http.fresh in
  (http.status (fst (handler (bytesOf "AAAA"))) = http.StatusBadRequest
   /\ http.isClientError (http.status (fst (handler (bytesOf "AAAA"))))
      = true
   /\ snd (handler (bytesOf "AAAA")) = {| appKeyHash := repeat x00 32 |})
  /\ handler (bytesOf "//////////////////////////////////////////8=")
     = (http.fresh, {| appKeyHash := repeat xff 32 |}).
Proof.
  intros handler. split.
  - apply (proj1 (hashHandler_rejects_malformed_hash (list byte)
                    (fun body _ => (body, None))
                    (errorsNew "reached read limit")
                    (errorsNew "no Base64 given")
                    {| appKeyHash := repeat x00 32 |} http.fresh
                    (bytesOf "AAAA") eq_refl)).
    + left. reflexivity.
    + right. right. exists [x00; x00; x00]. split.
      * reflexivity.
      * cbn. discriminate.
  - apply (proj2 (proj2 (proj2
             (hashHandler_rejects_malformed_hash (list byte)
                (fun body _ => (body, None))
                (errorsNew "reached read limit")
                (errorsNew "no Base64 given")
                {| appKeyHash := repeat x00 32 |} http.fresh
                (bytesOf "//////////////////////////////////////////8=")
                eq_refl))) eq_refl (repeat xff 32)).
    + reflexivity.
    + reflexivity.
Defined.

(** C9, as the claim states it, fails whatever the value of [nonceLen]:
    a nonce of one byte and a nonce of two bytes are both forwarded to
    [attest] and answered with [StatusOK] and the Base64 text of the
    document. *)
Lemma attestationHandler_forwards_any_length :
  let handler :=
    handlers.attestationHandler "profiling" "bad form" "no nonce"
      "bad nonce format" "attestation failed" (fun _ => None)
      (fun _ _ _ => Ok [x2a]) false {| appKeyHash := repeat x00 32 |}
      http.fresh in
  handler {| ParseForm := None; Query := [("nonce", ["ab"])] |}
  = ({| http.wroteHeader := Some 200; http.written := ["Kg=="] |},
     [(Some [xab], None, None)])
  /\ handler {| ParseForm := None; Query := [("nonce", ["ABcd"])] |}
     = ({| http.wroteHeader := Some 200; http.written := ["Kg=="] |},
        [(Some [xab; xcd], None, None)]).
Proof. vm_compute. split; reflexivity. Qed.

(** C9, amended.  With profiling switched off, the handler rejects with
    [StatusBadRequest], and without calling [attest], every request whose
    form cannot be parsed, whose nonce parameter is missing or empty, or
    whose nonce, in lower case, is no hexadecimal text.  A nonce that
    decodes, whatever its length, is forwarded to [attest] with the
    serialized hashes and a nil public key, and is answered with the
    Base64 text of the document, or with [StatusInternalServerError] when
    [attest] fails.  With profiling switched on every request is answered
    with [StatusServiceUnavailable]. *)
Theorem attestationHandler_nonce :
  forall (errProfilingSet errBadForm errNoNonce errBadNonceFormat
          errFailedAttestation : string)
         (Serialize : AttestationHashes -> slice)
         (attest : slice -> slice -> slice -> result (list byte))
         (useProfiling : bool) (hashes : AttestationHashes)
         (w : http.ResponseWriter) (r : Request),
    let nonce := Get (Query r) "nonce" in
    let res :=
      handlers.attestationHandler errProfilingSet errBadForm errNoNonce
        errBadNonceFormat errFailedAttestation Serialize attest
        useProfiling hashes w r in
    http.wroteHeader w = None ->
    (useProfiling = true ->
     http.status (fst res) = http.StatusServiceUnavailable
     /\ snd res = [])
    /\ (useProfiling = false ->
        ParseForm r <> None \/ nonce = EmptyString
        \/ hex.DecodeString (strings.ToLower nonce) = None ->
        http.status (fst res) = http.StatusBadRequest
        /\ http.isClientError (http.status (fst res)) = true
        /\ snd res = [])
    /\ (useProfiling = false ->
        ParseForm r = None ->
        nonce <> EmptyString ->
        forall rawNonce,
          hex.DecodeString (strings.ToLower nonce) = Some rawNonce ->
          snd res = [(Some rawNonce, Serialize hashes, None)]
          /\ match attest (Some rawNonce) (Serialize hashes) None with
             | Ok rawDoc =>
                 http.status (fst res) = http.StatusOK
                 /\ http.written (fst res)
                    = http.written w ++ [base64.EncodeToString rawDoc]
             | Err _ =>
                 http.status (fst res) = http.StatusInternalServerError
             end).
Proof.
  intros errProfilingSet errBadForm errNoNonce errBadNonceFormat
         errFailedAttestation Serialize attest useProfiling hashes w r
         nonce res Hw.
  subst res nonce. unfold handlers.attestationHandler.
  split; [|split].
  - intros ->. cbn [fst snd]. rewrite status_Error by exact Hw. auto.
  - intros -> H.
    destruct (ParseForm r) as [e|].
    { cbn [fst snd]. rewrite status_Error by exact Hw. auto. }
    destruct (String.eqb (Get (Query r) "nonce") EmptyString) eqn:He.
    { cbn [fst snd]. rewrite status_Error by exact Hw. auto. }
    apply String.eqb_neq in He.
    destruct H as [H|[H|H]]; try congruence.
    rewrite H. cbn [fst snd]. rewrite status_Error by exact Hw. auto.
  - intros -> Hf Hn rawNonce Hx.
    rewrite Hf. apply String.eqb_neq in Hn. rewrite Hn, Hx.
    destruct (attest (Some rawNonce) (Serialize hashes) None) as [doc|e];
      cbn [fst snd].
    + split; [reflexivity|].
      unfold http.Fprintln, http.WriteHeader, http.status. rewrite Hw.
      cbn. auto.
    + split; [reflexivity|]. now rewrite status_Error by exact Hw.
Qed.

(** A request without nonce. *)
Lemma attestationHandler_nonce_witness :
  let res :=
    handlers.attestationHandler "profiling" "bad form" "no nonce"
      "bad nonce format" "attestation failed" (fun _ => None)
      (fun _ _ _ => Ok [x2a]) false {| appKeyHash := repeat x00 32 |}
      http.fresh {| ParseForm := None; Query := [] |} in
  http.status (fst res) = http.StatusBadRequest
  /\ http.isClientError (http.status (fst res)) = true
  /\ snd res = [].
Proof.
  apply (proj1 (proj2 (attestationHandler_nonce "profiling" "bad form"
                  "no nonce" "bad nonce format" "attestation failed"
                  (fun _ => None) (fun _ _ _ => Ok [x2a]) false
                  {| appKeyHash := repeat x00 32 |} http.fresh
                  {| ParseForm := None; Query := [] |} eq_refl))).
  - reflexivity.
  - right. left. reflexivity.
Defined.

(** C10.  Given an [auxInfo] value that is neither a [workerAuxInfo] nor a
    [leaderAuxInfo] value, the pointers that [verifyAttstn] returns among
    them, the production attester's [createAttstn] reports no error for
    the shape: it does what it does for a request whose nonce, user data
    and public key are nil, and returns the document the device gives for
    that request. *)
Theorem nitro_createAttstn_unrecognized_shape :
  forall (Session : Type) (OpenDefaultSession : result Session)
         (Send : Session -> nsm.Attestation -> result nsm.Response)
         (aux : auxInfo),
    (forall w, aux <> workerValue w) ->
    (forall l, aux <> leaderValue l) ->
    nitroAttester.createAttstn Session OpenDefaultSession Send aux
    = match OpenDefaultSession with
      | Err err => Err err
      | Ok s =>
          match Send s {| nsm.Nonce := None; nsm.UserData := None;
                          nsm.PublicKey := None |} with
          | Err err => Err err
          | Ok res =>
              match nsm.Attestation_ res with
              | Some {| nsm.Document := Some document |} => Ok document
              | _ =>
                  Err (errorsNew "NSM device did not return an attestation")
              end
          end
      end.
Proof.
  intros Session OpenDefaultSession Send aux Hw Hl.
  destruct aux as [w|l|w|l|m]; try reflexivity.
  - now contradiction (Hw w).
  - now contradiction (Hl l).
Qed.

(** The pointer to a worker's payload, and a device that gives a document
    for the request without nonce, user data and public key only. *)
Lemma nitro_createAttstn_unrecognized_shape_witness :
  nitroAttester.createAttstn unit (Ok tt)
    (fun _ req =>
       match nsm.Nonce req, nsm.UserData req, nsm.PublicKey req with
       | None, None, None =>
           Ok {| nsm.Attestation_ :=
                   Some {| nsm.Document := Some [x2a] |} |}
       | _, _, _ => Err (foreignError 0)
       end)
    (workerPtr sampleWorker)
  = Ok [x2a].
Proof.
  rewrite (nitro_createAttstn_unrecognized_shape unit (Ok tt)
             (fun _ req =>
                match nsm.Nonce req, nsm.UserData req, nsm.PublicKey req
                with
                | None, None, None =>
                    Ok {| nsm.Attestation_ :=
                            Some {| nsm.Document := Some [x2a] |} |}
                | _, _, _ => Err (foreignError 0)
                end)
             (workerPtr sampleWorker)).
  - reflexivity.
  - discriminate.
  - discriminate.
Defined.

(* ===================================================================== *)
(** * Further properties of the code                                      *)
(* ===================================================================== *)

(** ** The attesters *)

(** X1.  A verification that fails does not change the state behind
    [isOurNonce], provided the predicate leaves its state as it is when
    it answers false: a document that is rejected, for whatever reason,
    consumes no nonce.  Both attesters. *)
Theorem verifyAttstn_failure_keeps_state :
  forall (St : Type) (isOurNonce : predicate St),
    (forall s st, fst (isOurNonce s st) = false ->
                  snd (isOurNonce s st) = st) ->
    (forall (nonceLen : nat) (doc : list byte) (st : St) (e : error),
        fst (dummyAttester.verifyAttstn nonceLen doc isOurNonce st) = Err e ->
        snd (dummyAttester.verifyAttstn nonceLen doc isOurNonce st) = st)
    /\ (forall (Time : Type) (currentTime : Time) Verify getPCRValues
               arePCRsIdentical (doc : list byte) (st : St) (e : error),
           fst (nitroAttester.verifyAttstn Time currentTime Verify
                  getPCRValues arePCRsIdentical doc isOurNonce st) = Err e ->
           snd (nitroAttester.verifyAttstn Time currentTime Verify
                  getPCRValues arePCRsIdentical doc isOurNonce st) = st).
Proof.
  intros St p Hp. split.
  - intros nonceLen doc st e. unfold dummyAttester.verifyAttstn.
    destruct (Worker.Unmarshal doc) as [w|e']; [|reflexivity].
    destruct (dummyAttester.isWorker nonceLen w).
    + pose proof (Hp (B64 (Worker.LeadersNonce w)) st) as H.
      destruct (p _ st) as [[|] st']; cbn in *; [discriminate | auto].
    + destruct (Leader.Unmarshal doc) as [l|e']; [|reflexivity].
      destruct (dummyAttester.isLeader nonceLen l); [|reflexivity].
      pose proof (Hp (B64 (Leader.WorkersNonce l)) st) as H.
      destruct (p _ st) as [[|] st']; cbn in *; [discriminate | auto].
  - intros Time currentTime Verify getPCRValues arePCRsIdentical doc st e.
    unfold nitroAttester.verifyAttstn.
    destruct (Verify doc currentTime) as [their|e']; [|reflexivity].
    destruct getPCRValues as [ourPCRs|e']; [|reflexivity].
    destruct (arePCRsIdentical ourPCRs (nitrite.PCRs their)); cbn [negb];
      [|reflexivity].
    pose proof (Hp (base64.EncodeToString (contents (nitrite.Nonce their)))
                   st) as H.
    destruct (p _ st) as [[|] st']; cbn in *; [|auto].
    destruct (isNil (nitrite.PublicKey their)); discriminate.
Qed.

Lemma consume_false_keeps (b64 : string) (c : nonceCache.cache) :
  fst (nonceCache.consume b64 c) = false ->
  snd (nonceCache.consume b64 c) = c.
Proof.
  unfold nonceCache.consume. cbn [fst snd].
  induction c as [|n c IH]; [reflexivity|].
  cbn [existsb filter]. intros H. apply orb_false_iff in H.
  destruct H as [Hn Hc]. rewrite Hn. cbn [negb]. now rewrite IH.
Qed.

(** A worker's document whose leader's nonce is not in the cache: the
    cache keeps the nonce it holds. *)
Lemma verifyAttstn_failure_keeps_state_witness :
  snd (dummyAttester.verifyAttstn 4 (Worker.Marshal sampleWorker)
         nonceCache.consume ["AAAA"]) = ["AAAA"].
Proof.
  apply (proj1 (verifyAttstn_failure_keeps_state nonceCache.cache
                  nonceCache.consume consume_false_keeps)
           4 (Worker.Marshal sampleWorker) ["AAAA"]
           (errorsNew "leader nonce not in cache")).
  reflexivity.
Defined.

(** X2.  The converse of the round trip of the dummy attester: the
    document of a worker's or leader's value that is not well-formed is
    rejected as invalid auxiliary information, whatever the predicate
    answers, and the predicate is not consulted. *)
Theorem dummy_verifyAttstn_rejects_ill_formed :
  forall (nonceLen : nat) (St : Type) (isOurNonce : predicate St) (st : St),
    (forall w : workerAuxInfo,
        len (Worker.WorkersNonce w) <> nonceLen
        \/ len (Worker.LeadersNonce w) <> nonceLen
        \/ Worker.PublicKey w = None ->
        exists doc,
          dummyAttester.createAttstn (workerValue w) = Ok doc
          /\ dummyAttester.verifyAttstn nonceLen doc isOurNonce st
             = (Err (errorsNew "invalid auxiliary information"), st))
    /\ (forall l : leaderAuxInfo,
           len (Leader.WorkersNonce l) <> nonceLen
           \/ Leader.EnclaveKeys l = None ->
           exists doc,
             dummyAttester.createAttstn (leaderValue l) = Ok doc
             /\ dummyAttester.verifyAttstn nonceLen doc isOurNonce st
                = (Err (errorsNew "invalid auxiliary information"), st)).
Proof.
  intros nonceLen St p st. split.
  - intros w H. exists (Worker.Marshal w). split; [reflexivity|].
    unfold dummyAttester.verifyAttstn.
    rewrite Worker_Unmarshal_Marshal, Leader_Unmarshal_Worker_Marshal.
    replace (dummyAttester.isWorker nonceLen w) with false.
    + unfold dummyAttester.isLeader. cbn [Leader.EnclaveKeys isNil negb].
      now rewrite andb_false_r.
    + symmetry. unfold dummyAttester.isWorker.
      destruct H as [H|[H|H]].
      * apply Nat.eqb_neq in H. now rewrite H.
      * apply Nat.eqb_neq in H. rewrite H. now rewrite andb_false_r.
      * rewrite H. cbn. now rewrite andb_false_r.
  - intros l H. exists (Leader.Marshal l). split; [reflexivity|].
    unfold dummyAttester.verifyAttstn.
    rewrite Worker_Unmarshal_Leader_Marshal, Leader_Unmarshal_Marshal.
    replace (dummyAttester.isWorker nonceLen _) with false
      by (unfold dummyAttester.isWorker; cbn; now rewrite andb_false_r).
    replace (dummyAttester.isLeader nonceLen l) with false; [reflexivity|].
    symmetry. unfold dummyAttester.isLeader.
    destruct H as [H|H].
    + apply Nat.eqb_neq in H. now rewrite H.
    + rewrite H. cbn. now rewrite andb_false_r.
Qed.

(** The sample worker's value, whose nonces have four bytes, where nonces
    of five bytes are expected. *)
Lemma dummy_verifyAttstn_rejects_ill_formed_witness :
  exists doc,
    dummyAttester.createAttstn (workerValue sampleWorker) = Ok doc
    /\ dummyAttester.verifyAttstn 5 doc (fun _ (st : unit) => (true, st)) tt
       = (Err (errorsNew "invalid auxiliary information"), tt).
Proof.
  apply (proj1 (dummy_verifyAttstn_rejects_ill_formed 5 unit
                  (fun _ st => (true, st)) tt)).
  left. cbn. discriminate.
Defined.

(** X3.  The documents of the dummy attester tell their payloads apart:
    two workers' values that differ have different documents, and so have
    two leaders' values; a worker's value and a leader's value never have
    the same document. *)
Theorem dummy_createAttstn_injective :
  (forall w1 w2 : workerAuxInfo,
      w1 <> w2 ->
      dummyAttester.createAttstn (workerValue w1)
      <> dummyAttester.createAttstn (workerValue w2))
  /\ (forall l1 l2 : leaderAuxInfo,
         l1 <> l2 ->
         dummyAttester.createAttstn (leaderValue l1)
         <> dummyAttester.createAttstn (leaderValue l2))
  /\ (forall (w : workerAuxInfo) (l : leaderAuxInfo),
         dummyAttester.createAttstn (workerValue w)
         <> dummyAttester.createAttstn (leaderValue l)).
Proof.
  assert (Hok : forall a b : list byte, Ok a = Ok b -> a = b)
    by (intros a b H; exact (f_equal (fun r => match r with
                                               | Ok d => d
                                               | Err _ => a
                                               end) H)).
  unfold dummyAttester.createAttstn. cbn [json_Marshal]. repeat split.
  - intros w1 w2 Hne H. apply Hok in H.
    apply (f_equal Worker.Unmarshal) in H.
    rewrite !Worker_Unmarshal_Marshal in H. congruence.
  - intros l1 l2 Hne H. apply Hok in H.
    apply (f_equal Leader.Unmarshal) in H.
    rewrite !Leader_Unmarshal_Marshal in H. congruence.
  - intros w l H. apply Hok in H.
    apply (f_equal json.parse) in H.
    unfold Worker.Marshal, Leader.Marshal in H.
    rewrite !parse_MarshalStruct in H by reflexivity.
    discriminate H.
Qed.

(** Two workers' values that differ in the public key only: one byte
    against an empty key. *)
Lemma dummy_createAttstn_injective_witness :
  dummyAttester.createAttstn (workerValue sampleWorker)
  <> dummyAttester.createAttstn (workerValue otherWorker).
Proof.
  apply (proj1 dummy_createAttstn_injective). discriminate.
Defined.

Lemma parseValue_string (fuel : nat) (depth : N) (t rest : string) :
  plain t = true ->
  json.parseValue (S fuel) depth (String dquote (t ++ String dquote rest))
  = Some (json.Str t, rest).
Proof.
  intros Ht. cbn [json.parseValue].
  replace (Ascii.eqb dquote "{"%char) with false by reflexivity.
  replace (Ascii.eqb dquote "["%char) with false by reflexivity.
  rewrite Ascii.eqb_refl. now rewrite stringBody_plain.
Qed.

Lemma parseMembers_string_member (fuel : nat) (depth : N)
    (k t rest : string) :
  plain k = true ->
  plain t = true ->
  json.parseMembers (S (S fuel)) depth
    (String dquote (k ++ String dquote (String ":"%char
       (String dquote (t ++ String dquote
          (String ","%char (String dquote rest)))))))
  = match json.parseMembers (S fuel) depth (String dquote rest) with
    | Some (ms, r) => Some ((k, json.Str t) :: ms, r)
    | None => None
    end.
Proof.
  intros Hk Ht.
  change (json.parseMembers (S (S fuel)) depth ?s)
    with (match json.after dquote s with
          | None => None
          | Some r =>
              match json.stringBody r with
              | None => None
              | Some (key, r1) =>
                  match json.after ":" (json.skipSpace r1) with
                  | None => None
                  | Some r2 =>
                      match json.parseValue (S fuel) depth
                              (json.skipSpace r2) with
                      | None => None
                      | Some (v, r3) =>
                          match json.after "," (json.skipSpace r3) with
                          | Some r4 =>
                              match json.parseMembers (S fuel) depth
                                      (json.skipSpace r4) with
                              | Some (ms, rest) => Some ((key, v) :: ms, rest)
                              | None => None
                              end
                          | None =>
                              match json.after "}" (json.skipSpace r3) with
                              | Some r4 => Some ([(key, v)], r4)
                              | None => None
                              end
                          end
                      end
                  end
              end
          end).
  rewrite after_same.
  rewrite (stringBody_plain k) by exact Hk.
  rewrite (skipSpace_nonspace ":"%char) by reflexivity.
  rewrite after_same.
  rewrite (skipSpace_nonspace dquote) by reflexivity.
  rewrite (parseValue_string _ _ t) by exact Ht.
  rewrite (skipSpace_nonspace ","%char) by reflexivity.
  rewrite after_same.
  rewrite (skipSpace_nonspace dquote) by reflexivity.
  reflexivity.
Qed.

Lemma parseValue_object (fuel : nat) (c : ascii) (r : string) :
  json.isSpace c = false ->
  Ascii.eqb c "}"%char = false ->
  json.parseValue (S fuel) 0 (String "{"%char (String c r))
  = match json.parseMembers fuel 1 (String c r) with
    | Some (ms, rest) => Some (json.Object ms, rest)
    | None => None
    end.
Proof.
  intros Hs Hc.
  change (json.parseValue (S fuel) 0 (String "{"%char ?r))
    with (if (json.maxNestingDepth <? 0 + 1)%N then None
          else
            match json.after "}" (json.skipSpace r) with
            | Some r' => Some (json.Object [], r')
            | None =>
                match json.parseMembers fuel (0 + 1) (json.skipSpace r) with
                | Some (ms, rest) => Some (json.Object ms, rest)
                | None => None
                end
            end).
  replace (json.maxNestingDepth <? 0 + 1)%N with false by reflexivity.
  rewrite (skipSpace_nonspace c) by exact Hs.
  rewrite after_other by exact Hc.
  reflexivity.
Qed.

Lemma maskedLeader_parse (n : nat) :
  json.parse (maskedLeader n)
  = Some (json.Object
            [ ("public_key", json.Str "*");
              ("workers_nonce", valueOf (Some (repeat x00 n)));
              ("enclave_keys", valueOf (Some [])) ]).
Proof.
  unfold json.parse, maskedLeader. rewrite stringOf_bytesOf.
  rewrite (skipSpace_nonspace "{"%char) by reflexivity.
  set (ms := [ ("workers_nonce", Some (repeat x00 n));
               ("enclave_keys", Some []) ]).
  assert (Hms : forallb (fun m : string * slice => plain (fst m)) ms = true)
    by reflexivity.
  assert (Hne : ms <> []) by discriminate.
  pose proof (fun fuel H =>
                parseMembers_marshal ms Hne Hms fuel 1%N EmptyString H)
    as Hrest.
  destruct (marshalMembers_head ms "}" Hne) as [t Ht].
  rewrite Ht in *.
  match goal with
  | |- context [json.parseValue (S (String.length ?s))] =>
      assert (Hfuel : exists f, String.length s = S (S (S (S f))))
        by (eexists; reflexivity)
  end.
  destruct Hfuel as [f ->].
  rewrite parseValue_object by reflexivity.
  rewrite (parseMembers_string_member _ _ "public_key" "*")
    by reflexivity.
  rewrite Hrest by (unfold ms; cbn [List.length]; lia).
  reflexivity.
Qed.

(** X4.  The dummy attester returns as soon as the document cannot be
    decoded as a worker's payload: a document that is a well-formed
    leader's payload, and carries besides a member public_key that is no
    Base64, is rejected with the error of the decoder, whatever the
    predicate answers, and the predicate is not consulted.  Such a
    document exists for every [nonceLen]. *)
Theorem dummy_verifyAttstn_worker_error_hides_leader :
  forall nonceLen : nat,
    exists doc l,
      Leader.Unmarshal doc = Ok l
      /\ dummyAttester.isLeader nonceLen l = true
      /\ forall (St : Type) (isOurNonce : predicate St) (st : St),
           dummyAttester.verifyAttstn nonceLen doc isOurNonce st
           = (Err (jsonError "cannot unmarshal value into Go struct field"),
              st).
Proof.
  intros n. exists (maskedLeader n).
  exists {| Leader.WorkersNonce := Some (repeat x00 n);
            Leader.EnclaveKeys := Some [] |}.
  split; [|split].
  - unfold Leader.Unmarshal, json.Unmarshal. rewrite maskedLeader_parse.
    rewrite object_skip by reflexivity.
    do 2 (erewrite object_field by reflexivity).
    reflexivity.
  - unfold dummyAttester.isLeader, len.
    cbn [Leader.WorkersNonce Leader.EnclaveKeys contents isNil negb].
    now rewrite repeat_length, Nat.eqb_refl.
  - intros St p st. unfold dummyAttester.verifyAttstn.
    unfold Worker.Unmarshal, json.Unmarshal. rewrite maskedLeader_parse.
    reflexivity.
Qed.

(** ** The production attester *)

(** X5.  The production attester examines the nonce last: when
    [nitrite.Verify] fails, when the registers of this enclave cannot be
    read, or when the registers of the document are not identical to
    them, the document is rejected with an error that wraps or names the
    cause, whatever the predicate answers, and the predicate is not
    consulted. *)
Theorem nitro_verifyAttstn_checks_before_nonce :
  forall (St Time : Type) (currentTime : Time) Verify getPCRValues
         arePCRsIdentical (doc : list byte) (isOurNonce : predicate St)
         (st : St),
    let verify :=
      nitroAttester.verifyAttstn Time currentTime Verify getPCRValues
        arePCRsIdentical doc isOurNonce st in
    (forall e, Verify doc currentTime = Err e ->
               verify = (Err (fmtErrorfW nitroAttester.errStr e), st))
    /\ (forall their e,
           Verify doc currentTime = Ok their ->
           getPCRValues = Err e ->
           verify = (Err (fmtErrorfW nitroAttester.errStr e), st))
    /\ (forall their ourPCRs,
           Verify doc currentTime = Ok their ->
           getPCRValues = Ok ourPCRs ->
           arePCRsIdentical ourPCRs (nitrite.PCRs their) = false ->
           verify
           = (Err (fmtErrorf
                (nitroAttester.errStr
                 ++ ": PCR values of remote enclave not identical to ours")),
              st)).
Proof.
  intros St Time currentTime Verify getPCRValues arePCRsIdentical doc p st
         verify.
  subst verify. unfold nitroAttester.verifyAttstn. repeat split.
  - intros e ->. reflexivity.
  - intros their e -> ->. reflexivity.
  - intros their ourPCRs -> -> ->. reflexivity.
Qed.

(** A verified document with registers that differ from ours, and a
    predicate that accepts every nonce. *)
Lemma nitro_verifyAttstn_checks_before_nonce_witness :
  nitroAttester.verifyAttstn unit tt
    (fun _ _ => Ok {| nitrite.PCRs := [(0, [x01])];
                      nitrite.Nonce := Some [x01];
                      nitrite.UserData := Some [x02];
                      nitrite.PublicKey := None |})
    (Ok [(0, [x02])]) (fun _ _ => false) []
    (fun _ (st : unit) => (true, st)) tt
  = (Err (fmtErrorf
       (nitroAttester.errStr
        ++ ": PCR values of remote enclave not identical to ours")),
     tt).
Proof.
  apply (proj2 (proj2 (nitro_verifyAttstn_checks_before_nonce unit unit tt
           (fun _ _ => Ok {| nitrite.PCRs := [(0, [x01])];
                             nitrite.Nonce := Some [x01];
                             nitrite.UserData := Some [x02];
                             nitrite.PublicKey := None |})
           (Ok [(0, [x02])]) (fun _ _ => false) []
           (fun _ st => (true, st)) tt))
           {| nitrite.PCRs := [(0, [x01])];
              nitrite.Nonce := Some [x01];
              nitrite.UserData := Some [x02];
              nitrite.PublicKey := None |} [(0, [x02])]).
  - reflexivity.
  - reflexivity.
  - reflexivity.
Defined.



(** ** The key store *)

(** X7.  [equal] decides the equality of the bytes of the three fields,
    nil and empty being the same bytes, and it is transitive. *)
Theorem keys_equal_decides_contents :
  forall a b c : enclaveKeys.enclaveKeys,
    (enclaveKeys.equal a b = true
     <-> contents (enclaveKeys.NitridingKey a)
         = contents (enclaveKeys.NitridingKey b)
         /\ contents (enclaveKeys.NitridingCert a)
            = contents (enclaveKeys.NitridingCert b)
         /\ contents (enclaveKeys.AppKeys a)
            = contents (enclaveKeys.AppKeys b))
    /\ (enclaveKeys.equal a b = true ->
        enclaveKeys.equal b c = true ->
        enclaveKeys.equal a c = true).
Proof.
  assert (Hiff : forall a b : enclaveKeys.enclaveKeys,
             enclaveKeys.equal a b = true
             <-> contents (enclaveKeys.NitridingKey a)
                 = contents (enclaveKeys.NitridingKey b)
                 /\ contents (enclaveKeys.NitridingCert a)
                    = contents (enclaveKeys.NitridingCert b)
                 /\ contents (enclaveKeys.AppKeys a)
                    = contents (enclaveKeys.AppKeys b)).
  { intros a b. unfold enclaveKeys.equal, bytes.Equal.
    rewrite !andb_true_iff, !bytes_eqb_eq. tauto. }
  intros a b c. split; [apply Hiff|].
  intros Hab Hbc. apply Hiff in Hab, Hbc. apply Hiff.
  destruct Hab as (H1 & H2 & H3), Hbc as (H4 & H5 & H6).
  repeat split; congruence.
Qed.

(** A store with a nil key and certificate, a store with an empty key, and
    a store with an empty certificate. *)
Lemma keys_equal_decides_contents_witness :
  enclaveKeys.equal
    {| enclaveKeys.NitridingKey := None;
       enclaveKeys.NitridingCert := None;
       enclaveKeys.AppKeys := Some [x01] |}
    {| enclaveKeys.NitridingKey := None;
       enclaveKeys.NitridingCert := Some [];
       enclaveKeys.AppKeys := Some [x01] |} = true.
Proof.
  apply (proj2 (keys_equal_decides_contents
                  {| enclaveKeys.NitridingKey := None;
                     enclaveKeys.NitridingCert := None;
                     enclaveKeys.AppKeys := Some [x01] |}
                  {| enclaveKeys.NitridingKey := Some [];
                     enclaveKeys.NitridingCert := None;
                     enclaveKeys.AppKeys := Some [x01] |}
                  {| enclaveKeys.NitridingKey := None;
                     enclaveKeys.NitridingCert := Some [];
                     enclaveKeys.AppKeys := Some [x01] |}));
    reflexivity.
Defined.

(** X8.  The two partial setters touch their own fields only, commute, and
    together do what [set] does; [getAppKeys] reads what [setAppKeys]
    wrote and is blind to [setNitridingKeys]. *)
Theorem enclaveKeys_partial_setters :
  forall (e : enclaveKeys.enclaveKeys) (key cert appKeys : slice),
    enclaveKeys.setAppKeys (enclaveKeys.setNitridingKeys e key cert) appKeys
    = enclaveKeys.setNitridingKeys (enclaveKeys.setAppKeys e appKeys) key cert
    /\ enclaveKeys.setAppKeys (enclaveKeys.setNitridingKeys e key cert)
         appKeys
       = enclaveKeys.set e {| enclaveKeys.NitridingKey := key;
                              enclaveKeys.NitridingCert := cert;
                              enclaveKeys.AppKeys := appKeys |}
    /\ enclaveKeys.getAppKeys (enclaveKeys.setAppKeys e appKeys) = appKeys
    /\ enclaveKeys.getAppKeys (enclaveKeys.setNitridingKeys e key cert)
       = enclaveKeys.getAppKeys e
    /\ enclaveKeys.get (enclaveKeys.setAppKeys e appKeys)
       = {| enclaveKeys.NitridingKey := enclaveKeys.NitridingKey e;
            enclaveKeys.NitridingCert := enclaveKeys.NitridingCert e;
            enclaveKeys.AppKeys := appKeys |}
    /\ enclaveKeys.equal
         (enclaveKeys.get
            (enclaveKeys.setAppKeys
               (enclaveKeys.setNitridingKeys e key cert) appKeys))
         {| enclaveKeys.NitridingKey := key;
            enclaveKeys.NitridingCert := cert;
            enclaveKeys.AppKeys := appKeys |} = true.
Proof.
  intros e key cert appKeys. repeat split.
  unfold enclaveKeys.equal. cbn. now rewrite !bytes_Equal_refl.
Qed.

(** ** White space around a Base64 text *)

Lemma allOf_app (P : ascii -> bool) (a b : string) :
  allOf P (a ++ b) = allOf P a && allOf P b.
Proof.
  induction a as [|c a IH]; cbn [append allOf]; [reflexivity|].
  now rewrite IH, andb_assoc.
Qed.

Lemma append_assoc (a b c : string) :
  ((a ++ b) ++ c)%string = (a ++ (b ++ c))%string.
Proof. induction a as [|x a IH]; cbn; [reflexivity | now rewrite IH]. Qed.

Lemma rev_acc (s acc : string) :
  strings.rev s acc = (strings.rev s EmptyString ++ acc)%string.
Proof.
  revert acc. induction s as [|c s IH]; intros acc; cbn [strings.rev].
  - reflexivity.
  - rewrite IH, (IH (String c EmptyString)).
    rewrite append_assoc. reflexivity.
Qed.

Lemma append_nil_r (s : string) : (s ++ EmptyString)%string = s.
Proof. induction s as [|c s IH]; cbn; [reflexivity | now rewrite IH]. Qed.

Lemma rev_app (a b : string) :
  strings.rev (a ++ b) EmptyString
  = (strings.rev b EmptyString ++ strings.rev a EmptyString)%string.
Proof.
  induction a as [|c a IH]; cbn [append strings.rev].
  - now rewrite append_nil_r.
  - rewrite (rev_acc (a ++ b) (String c EmptyString)), IH,
      (rev_acc a (String c EmptyString)).
    now rewrite append_assoc.
Qed.

Lemma rev_rev (s : string) :
  strings.rev (strings.rev s EmptyString) EmptyString = s.
Proof.
  induction s as [|c s IH]; cbn [strings.rev]; [reflexivity|].
  rewrite (rev_acc s (String c EmptyString)), rev_app, IH. reflexivity.
Qed.

Lemma allOf_rev (P : ascii -> bool) (s : string) :
  allOf P (strings.rev s EmptyString) = allOf P s.
Proof.
  induction s as [|c s IH]; cbn [strings.rev allOf]; [reflexivity|].
  rewrite (rev_acc s (String c EmptyString)), allOf_app, IH. cbn [allOf].
  now rewrite andb_true_r, andb_comm.
Qed.

Lemma TrimLeftSpace_spaces (ws s : string) :
  allOf strings.asciiSpace ws = true ->
  strings.TrimLeftSpace (ws ++ s) = strings.TrimLeftSpace s.
Proof.
  induction ws as [|c ws IH]; intros H; [reflexivity|].
  cbn [allOf] in H. apply andb_prop in H. destruct H as [Hc H].
  cbn [append strings.TrimLeftSpace]. now rewrite Hc, IH.
Qed.

Lemma TrimLeftSpaceRev_spaces (ws s : string) :
  allOf strings.asciiSpace ws = true ->
  strings.TrimLeftSpaceRev (ws ++ s) = strings.TrimLeftSpaceRev s.
Proof.
  induction ws as [|c ws IH]; intros H; [reflexivity|].
  cbn [allOf] in H. apply andb_prop in H. destruct H as [Hc H].
  cbn [append strings.TrimLeftSpaceRev]. now rewrite Hc, IH.
Qed.

Lemma inkChar_lead (a : ascii) :
  inkChar a = true ->
  strings.asciiSpace a = false
  /\ (forall b, strings.space2 a b = false)
  /\ (forall b, strings.space2 b a = false)
  /\ (forall b c, strings.space3 a b c = false)
  /\ (forall b c, strings.space3 c b a = false).
Proof.
  unfold inkChar, strings.space2, strings.space3. intros H.
  apply andb_prop in H. destruct H as [Hs H].
  apply negb_true_iff in Hs. apply N.ltb_lt in H.
  split; [exact Hs|].
  repeat split; intros;
    repeat match goal with
           | |- context [(?x =? ?y)%N] =>
               destruct (N.eqb_spec x y); try lia
           | |- context [(?x <=? ?y)%N] =>
               destruct (N.leb_spec x y); try lia
           end; cbn; try reflexivity.
Qed.

Lemma TrimLeftSpace_ink (s : string) :
  allOf inkChar s = true -> strings.TrimLeftSpace s = s.
Proof.
  destruct s as [|a r]; [reflexivity|]. cbn [allOf]. intros H.
  apply andb_prop in H. destruct H as [Ha _].
  apply inkChar_lead in Ha. destruct Ha as (H1 & H2 & _ & H3 & _).
  cbn [strings.TrimLeftSpace]. rewrite H1.
  destruct r as [|b [|c r]]; [reflexivity| |].
  - now rewrite H2.
  - now rewrite H2, H3.
Qed.

Lemma TrimLeftSpaceRev_ink (s : string) :
  allOf inkChar s = true -> strings.TrimLeftSpaceRev s = s.
Proof.
  destruct s as [|a r]; [reflexivity|]. cbn [allOf]. intros H.
  apply andb_prop in H. destruct H as [Ha _].
  apply inkChar_lead in Ha. destruct Ha as (H1 & _ & H2 & _ & H3).
  cbn [strings.TrimLeftSpaceRev]. rewrite H1.
  destruct r as [|b [|c r]]; [reflexivity| |].
  - now rewrite H2.
  - now rewrite H2, H3.
Qed.

(** [strings.TrimSpace] removes the ASCII white space around a text of
    ASCII that holds none. *)
Lemma TrimSpace_ink (before s after : string) :
  allOf strings.asciiSpace before = true ->
  allOf inkChar s = true ->
  allOf strings.asciiSpace after = true ->
  strings.TrimSpace (before ++ s ++ after) = s.
Proof.
  intros Hb Hs Ha. unfold strings.TrimSpace, strings.TrimRightSpace.
  rewrite TrimLeftSpace_spaces by exact Hb.
  assert (Hl : strings.TrimLeftSpace (s ++ after)
               = match s with
                 | EmptyString => EmptyString
                 | String _ _ => (s ++ after)%string
                 end).
  { destruct s as [|a r].
    - cbn [append]. rewrite <- (append_nil_r after).
      now rewrite TrimLeftSpace_spaces.
    - cbn [allOf] in Hs. apply andb_prop in Hs. destruct Hs as [Hc _].
      apply inkChar_lead in Hc. destruct Hc as (H1 & H2 & _ & H3 & _).
      cbn [append strings.TrimLeftSpace]. rewrite H1.
      destruct (r ++ after)%string as [|b [|c t]]; [reflexivity| |].
      + now rewrite H2.
      + now rewrite H2, H3. }
  rewrite Hl. destruct s as [|a r]; [reflexivity|].
  rewrite rev_app.
  rewrite TrimLeftSpaceRev_spaces by now rewrite allOf_rev.
  rewrite TrimLeftSpaceRev_ink by now rewrite allOf_rev.
  apply rev_rev.
Qed.

Lemma inkChar_enc6 (n : N) : (n < 64)%N -> inkChar (base64.enc6 n) = true.
Proof.
  apply (below_64 (fun n => inkChar (base64.enc6 n))).
  vm_compute. reflexivity.
Qed.

Lemma ink_Encode (bs : list byte) :
  allOf inkChar (base64.EncodeToString bs) = true.
Proof.
  induction bs as [|a|a b|a b c l IH] using list_ind3;
    cbn [base64.EncodeToString allOf].
  - reflexivity.
  - rewrite !inkChar_enc6 by byte_arith. reflexivity.
  - rewrite !inkChar_enc6 by byte_arith. reflexivity.
  - rewrite !inkChar_enc6 by byte_arith. now rewrite IH.
Qed.

(** ** The handlers of the hash and of the attestation *)

Lemma hashHandler_decoded (Body : Type)
    (readAll : Body -> nat -> list byte * option error)
    (errTooMuchToRead errNoBase64 : error) (hashes : AttestationHashes)
    (w : http.ResponseWriter) (body : Body) (read : list byte)
    (err : option error) (h : list byte) :
  readAll body 45 = (read, err) ->
  errors_Is err errTooMuchToRead = false ->
  base64.DecodeString (strings.TrimSpace (stringOf read)) = Some h ->
  List.length h = sha256_Size ->
  List.length (appKeyHash hashes) = sha256_Size ->
  handlers.hashHandler Body readAll errTooMuchToRead errNoBase64
                       hashes w body
  = (match err with
     | Some _ => http.Error w (Error_ errFailedReqBody)
                            http.StatusInternalServerError
     | None => w
     end, {| appKeyHash := h |}).
Proof.
  intros Hread Htoo Hdec Hlen Hh. unfold handlers.hashHandler.
  change (base64.EncodedLen sha256_Size + 1) with 45.
  rewrite Hread, Htoo, Hdec.
  rewrite (proj2 (Nat.eqb_eq _ _) Hlen). cbn [negb].
  rewrite copy_same_length by congruence. reflexivity.
Qed.

(** X9.  The handler of the hash registers every hash of [sha256.Size]
    bytes that is sent as its Base64 text, with or without ASCII white
    space around it: when the body is read to its end, the hash of the
    store is the hash sent, whatever hash was there before, and the
    handler writes nothing to the response, so the status is
    [StatusOK]. *)
Theorem hashHandler_registers_hash :
  forall (Body : Type) (readAll : Body -> nat -> list byte * option error)
         (errTooMuchToRead errNoBase64 : error) (hashes : AttestationHashes)
         (w : http.ResponseWriter) (body : Body) (h : list byte)
         (before after : string),
    readAll body 45
    = (bytesOf (before ++ base64.EncodeToString h ++ after), None) ->
    allOf strings.asciiSpace before = true ->
    allOf strings.asciiSpace after = true ->
    List.length h = sha256_Size ->
    List.length (appKeyHash hashes) = sha256_Size ->
    http.wroteHeader w = None ->
    let res :=
      handlers.hashHandler Body readAll errTooMuchToRead errNoBase64
                           hashes w body in
    appKeyHash (snd res) = h
    /\ fst res = w
    /\ http.status (fst res) = http.StatusOK.
Proof.
  intros Body readAll eTM eNB hashes w body h before after
         Hread Hb Ha Hlen Hh Hw res.
  subst res.
  rewrite (hashHandler_decoded Body readAll eTM eNB hashes w body _ None h
             Hread eq_refl).
  - cbn [fst snd appKeyHash]. unfold http.status. now rewrite Hw.
  - rewrite stringOf_bytesOf, TrimSpace_ink by auto using ink_Encode.
    apply DecodeString_EncodeToString.
  - exact Hlen.
  - exact Hh.
Qed.

(** The hash of 32 zero bytes, sent with a line feed after its text to a
    store that holds 32 bytes 255. *)
Lemma hashHandler_registers_hash_witness :
  appKeyHash
    (snd (handlers.hashHandler (list byte) (fun b _ => (b, None))
            (errorsNew "too much to read") (errorsNew "no Base64")
            {| appKeyHash := repeat xff 32 |} http.fresh
            (bytesOf (base64.EncodeToString (repeat x00 32) ++ newline))))
  = repeat x00 32.
Proof.
  exact (proj1 (hashHandler_registers_hash (list byte) (fun b _ => (b, None))
                  (errorsNew "too much to read") (errorsNew "no Base64")
                  {| appKeyHash := repeat xff 32 |} http.fresh
                  (bytesOf (base64.EncodeToString (repeat x00 32)
                            ++ newline))
                  (repeat x00 32) EmptyString newline
                  eq_refl eq_refl eq_refl eq_refl eq_refl eq_refl)).
Defined.

(** X10.  The handler of the hash does not return after a failed read:
    when the reading of the body fails with an error other than
    [errTooMuchToRead], the handler answers
    [StatusInternalServerError] with the message of [errFailedReqBody],
    and goes on with the bytes read so far.  If these are the Base64 text
    of a hash of [sha256.Size] bytes, the hash is registered although the
    request is answered as failed. *)
Theorem hashHandler_failed_read_registers_hash :
  forall (Body : Type) (readAll : Body -> nat -> list byte * option error)
         (errTooMuchToRead errNoBase64 : error) (hashes : AttestationHashes)
         (w : http.ResponseWriter) (body : Body) (h : list byte)
         (before after : string) (err : error),
    readAll body 45
    = (bytesOf (before ++ base64.EncodeToString h ++ after), Some err) ->
    errors_Is (Some err) errTooMuchToRead = false ->
    allOf strings.asciiSpace before = true ->
    allOf strings.asciiSpace after = true ->
    List.length h = sha256_Size ->
    List.length (appKeyHash hashes) = sha256_Size ->
    http.wroteHeader w = None ->
    let res :=
      handlers.hashHandler Body readAll errTooMuchToRead errNoBase64
                           hashes w body in
    http.status (fst res) = http.StatusInternalServerError
    /\ http.written (fst res)
       = http.written w ++ [Error_ errFailedReqBody]
    /\ appKeyHash (snd res) = h.
Proof.
  intros Body readAll eTM eNB hashes w body h before after err
         Hread Htoo Hb Ha Hlen Hh Hw res.
  subst res.
  rewrite (hashHandler_decoded Body readAll eTM eNB hashes w body _
             (Some err) h Hread Htoo).
  - cbn [fst snd appKeyHash]. rewrite status_Error by exact Hw.
    repeat split.
    unfold http.Error, http.Fprintln, http.WriteHeader. rewrite Hw.
    reflexivity.
  - rewrite stringOf_bytesOf, TrimSpace_ink by auto using ink_Encode.
    apply DecodeString_EncodeToString.
  - exact Hlen.
  - exact Hh.
Qed.

(** A reader that fails after it has read the text of the hash of 32 zero
    bytes. *)
Lemma hashHandler_failed_read_registers_hash_witness :
  let res :=
    handlers.hashHandler (list byte)
      (fun b _ => (b, Some (errorsNew "connection reset")))
      (errorsNew "too much to read") (errorsNew "no Base64")
      {| appKeyHash := repeat xff 32 |} http.fresh
      (bytesOf (base64.EncodeToString (repeat x00 32))) in
  http.status (fst res) = http.StatusInternalServerError
  /\ http.written (fst res) = [Error_ errFailedReqBody]
  /\ appKeyHash (snd res) = repeat x00 32.
Proof.
  exact (hashHandler_failed_read_registers_hash (list byte)
           (fun b _ => (b, Some (errorsNew "connection reset")))
           (errorsNew "too much to read") (errorsNew "no Base64")
           {| appKeyHash := repeat xff 32 |} http.fresh
           (bytesOf (base64.EncodeToString (repeat x00 32)))
           (repeat x00 32) EmptyString EmptyString
           (errorsNew "connection reset")
           eq_refl eq_refl eq_refl eq_refl eq_refl eq_refl eq_refl).
Defined.

Lemma fromHexChar_toLower (c : ascii) :
  hex.fromHexChar (strings.toLower c) = hex.fromHexChar c.
Proof. destruct c as [[] [] [] [] [] [] [] []]; reflexivity. Qed.

(** [hex.DecodeString] reads both cases of the letters, so that the
    lower case of a text decodes as the text does. *)
Lemma hex_DecodeString_ToLower (s : string) :
  hex.DecodeString (strings.ToLower s) = hex.DecodeString s.
Proof.
  revert s. fix IH 1. intros [|p [|q rest]].
  - reflexivity.
  - reflexivity.
  - cbn [strings.ToLower hex.DecodeString].
    rewrite !fromHexChar_toLower, (IH rest). reflexivity.
Qed.

(** X11.  A request for an attestation with a nonce in hexadecimal,
    letters of either case, is answered with one line whose Base64
    decoding is the document [attest] returned for the bytes of the nonce:
    the lower-casing of the handler changes nothing of what
    [hex.DecodeString] reads. *)
Theorem attestationHandler_answers_document :
  forall (errProfilingSet errBadForm errNoNonce errBadNonceFormat
          errFailedAttestation : string)
         (Serialize : AttestationHashes -> slice)
         (attest : slice -> slice -> slice -> result (list byte))
         (hashes : AttestationHashes) (w : http.ResponseWriter)
         (r : Request) (rawNonce rawDoc : list byte),
    http.wroteHeader w = None ->
    ParseForm r = None ->
    Get (Query r) "nonce" <> EmptyString ->
    hex.DecodeString (Get (Query r) "nonce") = Some rawNonce ->
    attest (Some rawNonce) (Serialize hashes) None = Ok rawDoc ->
    let res :=
      handlers.attestationHandler errProfilingSet errBadForm errNoNonce
        errBadNonceFormat errFailedAttestation Serialize attest
        false hashes w r in
    http.status (fst res) = http.StatusOK
    /\ snd res = [(Some rawNonce, Serialize hashes, None)]
    /\ exists line,
         http.written (fst res) = http.written w ++ [line]
         /\ base64.DecodeString line = Some rawDoc.
Proof.
  intros e1 e2 e3 e4 e5 Serialize attest hashes w r rawNonce rawDoc
         Hw Hform Hne Hhex Hatt res.
  subst res. unfold handlers.attestationHandler.
  rewrite Hform.
  rewrite (proj2 (String.eqb_neq _ _) Hne).
  rewrite hex_DecodeString_ToLower, Hhex, Hatt. cbn [fst snd].
  split; [|split].
  - unfold http.status, http.Fprintln, http.WriteHeader. rewrite Hw.
    reflexivity.
  - reflexivity.
  - exists (base64.EncodeToString rawDoc). split.
    + unfold http.Fprintln, http.WriteHeader. rewrite Hw. reflexivity.
    + apply DecodeString_EncodeToString.
Qed.

(** The nonce AB01 in capital letters, and an [attest] that returns the
    nonce as the document. *)
Lemma attestationHandler_answers_document_witness :
  let res :=
    handlers.attestationHandler "profiling" "bad form" "no nonce"
      "bad nonce" "failed" (fun _ => None)
      (fun n _ _ => Ok (contents n)) false {| appKeyHash := [] |}
      http.fresh {| ParseForm := None; Query := [("nonce", ["AB01"])] |} in
  http.status (fst res) = http.StatusOK
  /\ snd res = [(Some [xab; x01], None, None)]
  /\ exists line,
       http.written (fst res) = [line]
       /\ base64.DecodeString line = Some [xab; x01].
Proof.
  apply (attestationHandler_answers_document "profiling" "bad form"
           "no nonce" "bad nonce" "failed" (fun _ => None)
           (fun n _ _ => Ok (contents n)) {| appKeyHash := [] |}
           http.fresh
           {| ParseForm := None; Query := [("nonce", ["AB01"])] |}
           [xab; x01] [xab; x01]).
  - reflexivity.
  - reflexivity.
  - discriminate.
  - reflexivity.
  - reflexivity.
Defined.

(** ** The handlers of the state *)

(** X12.  State that is put is the state that is got.  On an enclave
    whose [KeyMaterial] returns what [SetKeyMaterial] stored, a PUT whose
    body is read to its end is answered with [StatusOK] and an empty body,
    and the GET that follows is answered with [StatusOK], the content type
    application/octet-stream and the bytes of the PUT. *)
Theorem putStateHandler_getStateHandler :
  forall (Enclave : Type) (KeyMaterial : Enclave -> result keyMaterial)
         (SetKeyMaterial : Enclave -> keyMaterial -> Enclave)
         (Body : Type) (readAll : Body -> nat -> list byte * option error)
         (e : Enclave) (w : http.ResponseWriter) (body : Body)
         (r : response) (state : list byte),
    (forall e k, KeyMaterial (SetKeyMaterial e k) = Ok k) ->
    readAll body maxKeyMaterialLen = (state, None) ->
    http.wroteHeader w = None ->
    http.wroteHeader (writer r) = None ->
    let put :=
      stateHandlers.putStateHandler Enclave SetKeyMaterial Body readAll
                                    e w body in
    http.status (fst put) = http.StatusOK
    /\ http.written (fst put) = http.written w
    /\ exists r',
         stateHandlers.getStateHandler Enclave KeyMaterial (snd put) r
         = Some r'
         /\ contentType r' = Some "application/octet-stream"
         /\ http.status (writer r') = http.StatusOK
         /\ http.written (writer r')
            = http.written (writer r) ++ [stringOf state]
         /\ bytesOf (stringOf state) = state.
Proof.
  intros Enclave KeyMaterial SetKeyMaterial Body readAll e w body r state
         Hkeep Hread Hw Hr put.
  subst put. unfold stateHandlers.putStateHandler. rewrite Hread.
  cbn [fst snd]. split; [|split].
  - unfold http.status, http.WriteHeader. now rewrite Hw.
  - unfold http.WriteHeader. now rewrite Hw.
  - unfold stateHandlers.getStateHandler. rewrite Hkeep.
    eexists. split; [reflexivity|].
    cbn [contentType writer setContentType contents].
    unfold http_Write, http.status, http.WriteHeader. rewrite Hr.
    cbn [http.wroteHeader http.written].
    repeat split. apply list_byte_of_string_of_list_byte.
Qed.

(** The state 01 02 03 put to an enclave that holds none. *)
Lemma putStateHandler_getStateHandler_witness :
  exists r',
    stateHandlers.getStateHandler (option keyMaterial) sampleKeyMaterial
      (snd (stateHandlers.putStateHandler (option keyMaterial)
              sampleSetKeyMaterial (list byte) (fun b _ => (b, None))
              None http.fresh [x01; x02; x03]))
      {| contentType := None; writer := http.fresh |}
    = Some r'
    /\ contentType r' = Some "application/octet-stream"
    /\ http.status (writer r') = http.StatusOK
    /\ http.written (writer r') = [stringOf [x01; x02; x03]]
    /\ bytesOf (stringOf [x01; x02; x03]) = [x01; x02; x03].
Proof.
  exact (proj2 (proj2
           (putStateHandler_getStateHandler (option keyMaterial)
              sampleKeyMaterial sampleSetKeyMaterial (list byte)
              (fun b _ => (b, None)) None http.fresh [x01; x02; x03]
              {| contentType := None; writer := http.fresh |}
              [x01; x02; x03]
              (fun _ _ => eq_refl) eq_refl eq_refl eq_refl))).
Defined.

(** X13.  The handlers of the state when something fails.  A PUT whose
    body cannot be read, also when it exceeds [maxKeyMaterialLen], is
    answered with [StatusInternalServerError] and stores nothing of what
    was read: the enclave is as before.  A GET on an enclave whose
    [KeyMaterial] fails is answered with [StatusInternalServerError] and
    the message of [errFailedGetState] as plain text: [http.Error]
    replaces the content type the handler had set.  The handler panics
    exactly on key material that is no byte slice. *)
Theorem stateHandlers_failures :
  forall (Enclave : Type) (KeyMaterial : Enclave -> result keyMaterial)
         (SetKeyMaterial : Enclave -> keyMaterial -> Enclave)
         (Body : Type) (readAll : Body -> nat -> list byte * option error)
         (e : Enclave) (w : http.ResponseWriter) (body : Body)
         (r : response),
    http.wroteHeader w = None ->
    http.wroteHeader (writer r) = None ->
    (snd (readAll body maxKeyMaterialLen) <> None ->
     let put :=
       stateHandlers.putStateHandler Enclave SetKeyMaterial Body readAll
                                     e w body in
     http.status (fst put) = http.StatusInternalServerError
     /\ snd put = e)
    /\ (forall err,
           KeyMaterial e = Err err ->
           exists r',
             stateHandlers.getStateHandler Enclave KeyMaterial e r = Some r'
             /\ http.status (writer r') = http.StatusInternalServerError
             /\ contentType r' = Some "text/plain; charset=utf-8"
             /\ http.written (writer r')
                = http.written (writer r) ++ [Error_ errFailedGetState])
    /\ (stateHandlers.getStateHandler Enclave KeyMaterial e r = None
        <-> exists tag, KeyMaterial e = Ok (materialOther tag)).
Proof.
  intros Enclave KeyMaterial SetKeyMaterial Body readAll e w body r Hw Hr.
  split; [|split].
  - intros Herr put. subst put. unfold stateHandlers.putStateHandler.
    destruct (readAll body maxKeyMaterialLen) as [read [err|]];
      cbn [snd] in Herr; [|congruence].
    cbn [fst snd]. now rewrite status_Error by exact Hw.
  - intros err Hk. unfold stateHandlers.getStateHandler. rewrite Hk.
    eexists. split; [reflexivity|].
    unfold response_Error. cbn [contentType writer setContentType].
    rewrite status_Error by exact Hr. repeat split.
    unfold http.Error, http.Fprintln, http.WriteHeader. rewrite Hr.
    reflexivity.
  - unfold stateHandlers.getStateHandler.
    destruct (KeyMaterial e) as [[b|tag]|err].
    + split; [discriminate | intros [tag H]; discriminate H].
    + split; [eauto | reflexivity].
    + split; [discriminate | intros [tag H]; discriminate H].
Qed.

(** A body that cannot be read, put to an enclave that holds the state
    01. *)
Lemma stateHandlers_failures_witness :
  let put :=
    stateHandlers.putStateHandler (option keyMaterial) sampleSetKeyMaterial
      (list byte) (fun b _ => (b, Some (errorsNew "too much to read")))
      (Some (materialBytes (Some [x01]))) http.fresh [x02; x03] in
  http.status (fst put) = http.StatusInternalServerError
  /\ snd put = Some (materialBytes (Some [x01])).
Proof.
  apply (proj1 (stateHandlers_failures (option keyMaterial)
                  sampleKeyMaterial sampleSetKeyMaterial (list byte)
                  (fun b _ => (b, Some (errorsNew "too much to read")))
                  (Some (materialBytes (Some [x01]))) http.fresh
                  [x02; x03] {| contentType := None; writer := http.fresh |}
                  eq_refl eq_refl)).
  discriminate.
Defined.

(** X14.  The handler of the synchronisation calls [RequestKeys] at most
    once, with the first value of the parameter addr and only when
    [url.Parse] accepts it; it answers [StatusOK] exactly when
    [RequestKeys] was called and succeeded, and writes nothing then; when
    [RequestKeys] was not called the answer is [StatusBadRequest]. *)
Theorem reqSyncHandler_outcomes :
  forall (Enclave : Type) (RequestKeys : string -> Enclave -> option error)
         (url_Parse : string -> option error) (e : Enclave)
         (w : http.ResponseWriter) (r : Request),
    http.wroteHeader w = None ->
    lookup (Query r) "addr" <> Some [] ->
    exists res calls,
      stateHandlers.reqSyncHandler Enclave RequestKeys url_Parse e w r
      = Some (res, calls)
      /\ (calls = []
          \/ exists addr rest,
               lookup (Query r) "addr" = Some (addr :: rest)
               /\ calls = [addr]
               /\ url_Parse addr = None)
      /\ (http.status res = http.StatusOK
          <-> exists addr, calls = [addr] /\ RequestKeys addr e = None)
      /\ (calls = [] -> http.status res = http.StatusBadRequest)
      /\ (http.status res = http.StatusOK ->
          http.written res = http.written w).
Proof.
  intros Enclave RequestKeys url_Parse e w r Hw Hne.
  unfold stateHandlers.reqSyncHandler.
  destruct (lookup (Query r) "addr") as [[|addr rest]|]; [congruence| |].
  - destruct (url_Parse addr) as [perr|] eqn:Hparse.
    + eexists _, _. split; [reflexivity|].
      rewrite status_Error by exact Hw.
      split; [now left|]. split; [|split].
      * split; [discriminate | intros [a [H _]]; discriminate H].
      * reflexivity.
      * discriminate.
    + destruct (RequestKeys addr e) as [err|] eqn:Hreq.
      * eexists _, _. split; [reflexivity|].
        rewrite status_Error by exact Hw.
        split; [right; eauto|]. split; [|split].
        -- split; [discriminate|].
           intros [a [H Ha]]. injection H as <-. congruence.
        -- discriminate.
        -- discriminate.
      * eexists _, _. split; [reflexivity|].
        split; [right; eauto|].
        unfold http.status, http.WriteHeader. rewrite Hw.
        cbn [http.wroteHeader http.written].
        split; [|split].
        -- split; [eauto | reflexivity].
        -- discriminate.
        -- reflexivity.
  - eexists _, _. split; [reflexivity|].
    rewrite status_Error by exact Hw.
    split; [now left|]. split; [|split].
    + split; [discriminate | intros [a [H _]]; discriminate H].
    + reflexivity.
    + discriminate.
Qed.

(** A request with two addresses, of which the first is used. *)
Lemma reqSyncHandler_outcomes_witness :
  exists res,
    stateHandlers.reqSyncHandler unit (fun _ _ => None) (fun _ => None) tt
      http.fresh
      {| ParseForm := None;
         Query := [("addr", ["https://a.example"; "https://b.example"])] |}
    = Some (res, ["https://a.example"])
    /\ http.status res = http.StatusOK.
Proof.
  destruct (reqSyncHandler_outcomes unit (fun _ _ => None) (fun _ => None)
              tt http.fresh
              {| ParseForm := None;
                 Query := [("addr", ["https://a.example";
                                     "https://b.example"])] |}
              eq_refl)
    as (res & calls & H & _).
  - discriminate.
  - exists res. injection H as <- <-. split; reflexivity.
Defined.

(** X15.  The handler of the readiness can be served once: the first
    request closes the channel and is answered with [StatusOK], and every
    request after it panics, because it closes a channel that is
    closed. *)
Theorem readyHandler_once :
  forall (ready : chan) (w w2 : http.ResponseWriter),
    http.wroteHeader w = None ->
    match readyHandler ready w with
    | Some (ready', res) =>
        ready = chanOpen
        /\ http.status res = http.StatusOK
        /\ http.written res = http.written w
        /\ readyHandler ready' w2 = None
    | None => ready = chanClosed
    end.
Proof.
  intros [|] w w2 Hw; cbn; [|reflexivity].
  unfold http.status, http.WriteHeader. rewrite Hw. cbn. auto.
Qed.

(** The first request on the open channel. *)
Lemma readyHandler_once_witness :
  match readyHandler chanOpen http.fresh with
  | Some (ready', res) =>
      chanOpen = chanOpen
      /\ http.status res = http.StatusOK
      /\ http.written res = http.written http.fresh
      /\ readyHandler ready' http.fresh = None
  | None => chanOpen = chanClosed
  end.
Proof.
  apply (readyHandler_once chanOpen http.fresh http.fresh). reflexivity.
Defined.

(** ** The metrics *)











